(** * GPT-2 / ViT FastAPI service and its load-test harness

    A shallow embedding of [model_deployment.ipynb]: the three request
    handlers ([generate_text], [process_image], [health_check]), the
    in-process test client, and the sequential performance harness
    ([run_performance_tests] with its nested [calculate_stats]).

    Conventions of the embedding.
    - The pretrained models, the tokenizer, PIL, [base64], FastAPI's
      validation of a request body, the wall clock and [datetime] are
      third-party code.  They are the fields of a [Platform]; every call
      that can raise returns a [Result].
    - In the service and the harness a clock reading is a real number, and
      a duration is the difference of two readings.  What numpy's [mean]
      and [std] make of a list of such durations is left to the [Platform]
      there: nothing is assumed about them.
    - What [calculate_stats] computes is a matter of IEEE arithmetic.
      Module [Binary64] embeds it on binary64 floats, with numpy's
      reductions as numpy runs them (pairwise summation, one rounding per
      operation); the properties of the statistics are proved there.
    - Console output ([print]) is not modelled.
    - The harness sends bodies that are well typed ([post_generate_text],
      [post_process_image]); a client that sends an arbitrary body goes
      through the framework's validation first ([client_post]). *)

From Stdlib Require Import Reals Lra Lia ZArith List Floats.
From stdpp Require Import base gmap strings.
Import ListNotations.

Local Open Scope string_scope.
Local Open Scope list_scope.
Local Open Scope R_scope.

(** ** Python values *)

(** An instance of Python's [Exception] as the notebook sees it: its class
    name and what [str(e)] returns. *)
Record Exception := mkException { exc_class : string; str : string }.

Inductive Result (A : Type) : Type :=
| Ok (a : A)
| Raise (e : Exception).
Arguments Ok {A} a.
Arguments Raise {A} e.

(** JSON as exchanged over HTTP and as dumped to disk.  A dict keeps its
    insertion order, as Python's does. *)
#[warnings="-register-all"]
Inductive json : Type :=
| JInt (z : Z)
| JFloat (r : R)
| JStr (s : string)
| JList (l : list json)
| JDict (d : list (string * json)).

(** [d[key]] on a list of items: the first binding of [key]. *)
Fixpoint items_get (key : string) (d : list (string * json)) : option json :=
  match d with
  | [] => None
  | (k, v) :: d' => if String.eqb k key then Some v else items_get key d'
  end.

Definition KeyError (key : string) : Exception :=
  mkException "KeyError" ("'" +:+ key +:+ "'").

Definition TypeError (msg : string) : Exception :=
  mkException "TypeError" msg.

Definition AssertionError : Exception := mkException "AssertionError" EmptyString.

Definition ValueError (msg : string) : Exception :=
  mkException "ValueError" msg.

(** [j[key]] for a value obtained from [response.json()]. *)
Definition getitem (j : json) (key : string) : Result json :=
  match j with
  | JDict d =>
      match items_get key d with
      | Some v => Ok v
      | None => Raise (KeyError key)
      end
  | _ => Raise (TypeError "indices must be integers")
  end.

(** ** Request models *)

(** A field of a JSON body: left out, or given.  For an [Optional[int]]
    field a given JSON [null] is [Given None]. *)
Inductive Field (A : Type) : Type :=
| Omitted
| Given (a : A).
Arguments Omitted {A}.
Arguments Given {A} a.

(** The JSON body of [POST /generate_text], well typed for [TextRequest]. *)
Record TextBody := mkTextBody {
  body_text : string;
  body_max_length : Field (option Z)
}.

(** [class TextRequest(BaseModel): text: str; max_length: Optional[int] = 100] *)
Record TextRequest := mkTextRequest {
  text : string;
  max_length : option Z
}.

(** Building the model from a body: a field that is left out takes its
    declared default. *)
Definition TextRequest_init (b : TextBody) : TextRequest :=
  {| text := body_text b;
     max_length := match body_max_length b with
                   | Omitted => Some 100%Z
                   | Given v => v
                   end |}.

(** [class ImageRequest(BaseModel): image: str] *)
Record ImageRequest := mkImageRequest {
  image : string
}.

(** ** The platform: third-party libraries, clock and transport *)

Class Platform := {
  (** hidden state of the machine: wall clock, device memory, ... *)
  Env : Type;
  Tokens : Type;
  Generated : Type;
  PILImage : Type;
  Pixels : Type;
  ViTOutput : Type;
  (** [time.time()] *)
  time_time : Env -> R * Env;
  (** [gpt_tokenizer(text, return_tensors="pt").to(device)] *)
  gpt_tokenizer : string -> Env -> Result Tokens * Env;
  (** [gpt_model.generate] on the tokenizer's output, with the given
      [max_length], one returned sequence and the end-of-text pad token *)
  gpt_model_generate : Tokens -> option Z -> Env -> Result Generated * Env;
  (** [gpt_tokenizer.decode(outputs[0], skip_special_tokens=True)] *)
  gpt_tokenizer_decode : Generated -> Env -> Result string * Env;
  (** [base64.b64decode(s)] *)
  b64decode : string -> Result (list Byte.byte);
  (** [Image.open(io.BytesIO(image_bytes))] *)
  Image_open : list Byte.byte -> Result PILImage;
  (** [vit_processor(images=image, return_tensors="pt").to(device)] *)
  vit_processor : PILImage -> Env -> Result Pixels * Env;
  (** the forward pass of [vit_model] on the processor's output *)
  vit_model : Pixels -> Env -> Result ViTOutput * Env;
  (** [outputs.last_hidden_state[:, 0].cpu().detach().numpy()], of which the
      handler only uses [.shape] *)
  cls_token_shape : ViTOutput -> Env -> Result (list Z) * Env;
  (** the test client carrying a request to the handler, and the response
      back to the caller *)
  client_send : Env -> Env;
  client_receive : Env -> Env;
  (** [datetime.now().strftime("%Y%m%d_%H%M%S")] *)
  datetime_now_strftime : Env -> string * Env;
  (** [Image.new(mode, size, color)] saved as PNG into a [BytesIO] *)
  Image_new_png : string -> Z * Z -> string -> list Byte.byte;
  (** [base64.b64encode(b).decode()] *)
  b64encode : list Byte.byte -> string;
  (** [np.mean(xs)] and [np.std(xs)] on a list of measured durations *)
  np_mean : list R -> R;
  np_std : list R -> R;
  (** what a client can put in the body of a POST *)
  RequestBody : Type;
  (** FastAPI reading a body as a [TextRequest], or as an [ImageRequest]:
      the fields it found, or the validation errors it reports *)
  validate_TextRequest : RequestBody -> list json + TextBody;
  validate_ImageRequest : RequestBody -> list json + ImageRequest
}.

(** ** State of a run *)

(** What an observer of a run can see happen, in order. *)
Inductive Event : Type :=
| EvRequest (method path : string)   (* the client issues a call *)
| EvResponse (status : Z)            (* the call has returned to the client *)
| EvGenerate (max_length : option Z) (* [gpt_model.generate] is invoked *).

Record World `{Platform} := mkWorld {
  env : Env;
  files : gmap string json;
  trace : list Event
}.

Section Embedding.
Context `{P : Platform}.

(** Computations that read and change the world and may raise. *)
Definition M (A : Type) : Type := World -> Result A * World.

Definition ret {A} (a : A) : M A := fun w => (Ok a, w).

Definition raise {A} (e : Exception) : M A := fun w => (Raise e, w).

Definition bind {A B} (m : M A) (k : A -> M B) : M B :=
  fun w =>
    match m w with
    | (Ok a, w') => k a w'
    | (Raise e, w') => (Raise e, w')
    end.

Definition lift_result {A} (r : Result A) : M A := fun w => (r, w).

(** A library call that works on the hidden state. *)
Definition call {A} (f : Env -> Result A * Env) : M A :=
  fun w =>
    let (r, e) := f (env w) in
    (r, mkWorld _ e (files w) (trace w)).

Definition step (f : Env -> Env) : M unit :=
  fun w => (Ok tt, mkWorld _ (f (env w)) (files w) (trace w)).

Definition emit (ev : Event) : M unit :=
  fun w => (Ok tt, mkWorld _ (env w) (files w) (trace w ++ [ev])).

(** [time.time()]: never raises. *)
Definition read_clock (w : World) : R * World :=
  let (t, e) := time_time (env w) in
  (t, mkWorld _ e (files w) (trace w)).

Definition now_time : M R :=
  fun w => let (t, w') := read_clock w in (Ok t, w').

(** [assert cond] *)
Definition assert (cond : bool) : M unit :=
  if cond then ret tt else raise AssertionError.

(** [with open(name, "w") as f: json.dump(content, f, indent=4)] *)
Definition write_file (name : string) (content : json) : M unit :=
  fun w => (Ok tt, mkWorld _ (env w) (<[name := content]> (files w)) (trace w)).

End Embedding.

Declare Scope py_scope.
Delimit Scope py_scope with py.
Notation "'let*' x ':=' m 'in' k" := (bind m (fun x => k))
  (at level 10, x pattern, m at level 100, k at level 200,
   only parsing) : py_scope.

Local Open Scope py_scope.

(** ** Handlers *)

(** How a handler ends: it returns a dict, or raises [HTTPException]. *)
Inductive Outcome : Type :=
| Return (content : json)
| RaiseHTTPException (status : Z) (detail : string).

Record Response := mkResponse {
  status_code : Z;
  response_json : json
}.

(** The framework's answer: 200 with the returned dict, or the exception's
    status with [{"detail": detail}]. *)
Definition respond (o : Outcome) : Response :=
  match o with
  | Return content => mkResponse 200 content
  | RaiseHTTPException status detail =>
      mkResponse status (JDict [("detail", JStr detail)])
  end.

(** What FastAPI answers to a body that does not validate: status 422 with
    the validation errors as [detail]. *)
Definition unprocessable (errors : list json) : Response :=
  mkResponse 422 (JDict [("detail", JList errors)]).

Section Service.
Context `{P : Platform}.

Definition Handler : Type := World -> Outcome * World.

(** [try: body  except Exception as e: raise HTTPException(status_code=500,
    detail=str(e))] *)
Definition except_Exception (body : M json) : Handler :=
  fun w =>
    match body w with
    | (Ok content, w') => (Return content, w')
    | (Raise e, w') => (RaiseHTTPException 500 (str e), w')
    end.

(** The [try] block of [generate_text]. *)
Definition generate_text_try (request : TextRequest) (start_time : R)
  : M json :=
  let* inputs := call (gpt_tokenizer (text request)) in
  let* _ := emit (EvGenerate (max_length request)) in
  let* outputs := call (gpt_model_generate inputs (max_length request)) in
  let* generated_text := call (gpt_tokenizer_decode outputs) in
  let* t := now_time in
  let process_time := t - start_time in
  ret (JDict [("generated_text", JStr generated_text);
              ("processing_time", JFloat process_time)]).

Definition generate_text (request : TextRequest) : Handler :=
  fun w =>
    let (start_time, w1) := read_clock w in
    except_Exception (generate_text_try request start_time) w1.

(** The [try] block of [process_image]. *)
Definition process_image_try (request : ImageRequest) (start_time : R)
  : M json :=
  let* image_bytes := lift_result (b64decode (image request)) in
  let* img := lift_result (Image_open image_bytes) in
  let* inputs := call (vit_processor img) in
  let* outputs := call (vit_model inputs) in
  let* cls_shape := call (cls_token_shape outputs) in
  let* t := now_time in
  let process_time := t - start_time in
  ret (JDict [("embedding_shape", JList (map JInt cls_shape));
              ("processing_time", JFloat process_time)]).

Definition process_image (request : ImageRequest) : Handler :=
  fun w =>
    let (start_time, w1) := read_clock w in
    except_Exception (process_image_try request start_time) w1.

Definition health_check : Handler :=
  fun w => (Return (JDict [("status", JStr "healthy")]), w).

(** ** The test client *)

(** One call through [TestClient(app)]: the request is carried to the
    handler, the handler runs in this process, the response is carried
    back.  The call returns only then. *)
Definition client_request (method path : string) (handler : Handler)
  : M Response :=
  let* _ := emit (EvRequest method path) in
  let* _ := step client_send in
  let* response := (fun w => let (o, w') := handler w in (Ok (respond o), w')) in
  let* _ := step client_receive in
  let* _ := emit (EvResponse (status_code response)) in
  ret response.

Definition post_generate_text (body : TextBody) : M Response :=
  client_request "POST" "/generate_text" (generate_text (TextRequest_init body)).

Definition post_process_image (body : ImageRequest) : M Response :=
  client_request "POST" "/process_image" (process_image body).

Definition get_health : M Response :=
  client_request "GET" "/health" health_check.

(** [client.post(path, json=body)] for whatever body the client sends.
    FastAPI validates the body against the handler's request model first.
    A body that validates is handed to the handler; one that does not is
    answered [unprocessable], and the handler is not called. *)
Definition client_post {A : Type} (path : string)
    (validate : RequestBody -> list json + A) (handler : A -> Handler)
    (body : RequestBody) : M Response :=
  match validate body with
  | inr request => client_request "POST" path (handler request)
  | inl errors =>
      let* _ := emit (EvRequest "POST" path) in
      let* _ := step client_send in
      let response := unprocessable errors in
      let* _ := step client_receive in
      let* _ := emit (EvResponse (status_code response)) in
      ret response
  end.

Definition client_post_generate_text (body : RequestBody) : M Response :=
  client_post "/generate_text" validate_TextRequest
              (fun b => generate_text (TextRequest_init b)) body.

Definition client_post_process_image (body : RequestBody) : M Response :=
  client_post "/process_image" validate_ImageRequest process_image body.

End Service.

(** ** Descriptive statistics on the measured durations

    [np.min] and [np.max] select a value of the list: nothing is rounded.
    [np.mean] and [np.std] are [np_mean] and [np_std] of the [Platform]. *)

Definition zero_size (op : string) : Exception :=
  ValueError ("zero-size array to reduction operation " +:+ op
              +:+ " which has no identity").

(** [np.min(xs)] *)
Definition np_min (xs : list R) : Result R :=
  match xs with
  | [] => Raise (zero_size "minimum")
  | x :: xs' => Ok (fold_left Rmin xs' x)
  end.

(** [np.max(xs)] *)
Definition np_max (xs : list R) : Result R :=
  match xs with
  | [] => Raise (zero_size "maximum")
  | x :: xs' => Ok (fold_left Rmax xs' x)
  end.

(** ** The load-test harness *)

(** One entry of [gpt_results] / [vit_results]. *)
Record CallResult := mkCallResult {
  request_number : Z;
  total_time : R;
  server_processing_time : R
}.

(** The [stats] dict of [calculate_stats]. *)
Record Statistics := mkStatistics {
  average_total_time : R;
  average_processing_time : R;
  min_time : R;
  max_time : R;
  std_dev : R
}.

(** [calculate_stats(results, model_name)]; [model_name] is only printed. *)
Definition calculate_stats `{P : Platform} (results : list CallResult)
    (model_name : string) : Result Statistics :=
  let total_times := map total_time results in
  let processing_times := map server_processing_time results in
  let average_total := np_mean total_times in
  let average_processing := np_mean processing_times in
  match np_min total_times with
  | Raise e => Raise e
  | Ok lo =>
      match np_max total_times with
      | Raise e => Raise e
      | Ok hi =>
          Ok {| average_total_time := average_total;
                average_processing_time := average_processing;
                min_time := lo;
                max_time := hi;
                std_dev := np_std total_times |}
      end
  end.

Definition CallResult_json (r : CallResult) : json :=
  JDict [("request_number", JInt (request_number r));
         ("total_time", JFloat (total_time r));
         ("server_processing_time", JFloat (server_processing_time r))].

Definition Statistics_json (s : Statistics) : json :=
  JDict [("average_total_time", JFloat (average_total_time s));
         ("average_processing_time", JFloat (average_processing_time s));
         ("min_time", JFloat (min_time s));
         ("max_time", JFloat (max_time s));
         ("std_dev", JFloat (std_dev s))].

(** The value [response.json()["processing_time"]] as the float that the
    statistics take it for.  A value that is no number is rejected (numpy
    would reject it); no handler of the service produces one. *)
Definition as_float (j : json) : Result R :=
  match j with
  | JFloat r => Ok r
  | JInt z => Ok (IZR z)
  | _ => Raise (TypeError "cannot perform reduce with flexible type")
  end.

(** [response.json() == {"status": "healthy"}] *)
Definition is_healthy_body (j : json) : bool :=
  match j with
  | JDict [(k, JStr v)] => String.eqb k "status" && String.eqb v "healthy"
  | _ => false
  end.

(** [range(n)] *)
Definition range (n : nat) : list Z := map Z.of_nat (seq 0 n).

Section Harness.
Context `{P : Platform}.

(** [for x in xs: acc = body(x, acc)]: a loop whose body updates a local. *)
Fixpoint for_in {A S : Type} (xs : list A) (body : A -> S -> M S) (acc : S)
  : M S :=
  match xs with
  | [] => ret acc
  | x :: xs' => let* acc' := body x acc in for_in xs' body acc'
  end.

(** [create_test_image()] *)
Definition create_test_image : string :=
  let img_byte_arr := Image_new_png "RGB" (224%Z, 224%Z) "red" in
  b64encode img_byte_arr.

(** [test_health()] *)
Definition test_health : M unit :=
  let* response := get_health in
  let* _ := assert (Z.eqb (status_code response) 200) in
  assert (is_healthy_body (response_json response)).

(** The part of a loop body that both loops share: time one call, check
    its status, build the record, append it. *)
Definition timed_call (post : M Response) (i : Z) (results : list CallResult)
  : M (list CallResult) :=
  let* start_time := now_time in
  let* response := post in
  let* end_time := now_time in
  let* _ := assert (Z.eqb (status_code response) 200) in
  let* reported := lift_result (getitem (response_json response)
                                        "processing_time") in
  let* reported_time := lift_result (as_float reported) in
  let result := {| request_number := (i + 1)%Z;
                   total_time := end_time - start_time;
                   server_processing_time := reported_time |} in
  ret (results ++ [result]).

(** Body of the GPT loop. *)
Definition gpt_call (test_text : string) : Z -> list CallResult
  -> M (list CallResult) :=
  timed_call (post_generate_text
                {| body_text := test_text;
                   body_max_length := Given (Some 50%Z) |}).

(** Body of the ViT loop. *)
Definition vit_call (test_image : string) : Z -> list CallResult
  -> M (list CallResult) :=
  timed_call (post_process_image {| image := test_image |}).

(** The [results] dict that is dumped. *)
Definition results_json (gpt_results : list CallResult) (gpt_stats : Statistics)
  (vit_results : list CallResult) (vit_stats : Statistics) : json :=
  JDict [("gpt", JDict [("individual_results",
                         JList (map CallResult_json gpt_results));
                        ("statistics", Statistics_json gpt_stats)]);
         ("vit", JDict [("individual_results",
                         JList (map CallResult_json vit_results));
                        ("statistics", Statistics_json vit_stats)])].

Definition results_file_name (timestamp : string) : string :=
  "test_results_" +:+ timestamp +:+ ".json".

Definition run_performance_tests : M unit :=
  let* _ := test_health in
  let test_text := "Once upon a time" in
  let* gpt_results := for_in (range 100) (gpt_call test_text) [] in
  let test_image := create_test_image in
  let* vit_results := for_in (range 100) (vit_call test_image) [] in
  let* gpt_stats := lift_result (calculate_stats gpt_results "GPT") in
  let* vit_stats := lift_result (calculate_stats vit_results "ViT") in
  let* timestamp := call (fun e => let (s, e') := datetime_now_strftime e in
                                   (Ok s, e')) in
  let results := results_json gpt_results gpt_stats vit_results vit_stats in
  write_file (results_file_name timestamp) results.

End Harness.

(** ** Assumptions on the platform that some properties need *)

(** The reading the clock would give in state [e]. *)
Definition now `{P : Platform} (e : Env) : R := fst (time_time e).

(** A clock that does not run backwards while the service works, and a
    transport that takes time. *)
Class SaneClock `{P : Platform} : Prop := {
  time_time_monotone : forall e, now e <= now (snd (time_time e));
  gpt_tokenizer_monotone :
    forall s e, now e <= now (snd (gpt_tokenizer s e));
  gpt_model_generate_monotone :
    forall t m e, now e <= now (snd (gpt_model_generate t m e));
  gpt_tokenizer_decode_monotone :
    forall g e, now e <= now (snd (gpt_tokenizer_decode g e));
  vit_processor_monotone :
    forall i e, now e <= now (snd (vit_processor i e));
  vit_model_monotone :
    forall x e, now e <= now (snd (vit_model x e));
  cls_token_shape_monotone :
    forall o e, now e <= now (snd (cls_token_shape o e));
  client_send_takes_time : forall e, now e < now (client_send e);
  client_receive_takes_time : forall e, now e < now (client_receive e)
}.

(** The state in which a handler starts when the harness issues a call in
    state [w]: the harness has read its clock and the request has been
    carried over. *)
Definition handler_start `{P : Platform} (method path : string) (w : World)
  : World :=
  mkWorld _ (client_send (snd (time_time (env w)))) (files w)
          (trace w ++ [EvRequest method path]).


(** ** A simulated platform

    A small deterministic platform on which the service and the harness
    can be run.  Its state is a tick counter that is also the clock; every
    library call and every transport step takes one tick.  Text generation
    runs out of memory once the counter has reached [budget] (never, when
    there is no budget). *)
Module Sim.

Definition tick {A} (a : A) (e : N) : Result A * N := (Ok a, N.succ e).

Definition out_of_memory : Exception :=
  mkException "RuntimeError" "CUDA out of memory".

Definition generate (budget : option N) (t : string) (m : option Z) (e : N)
  : Result string * N :=
  match budget with
  | Some b => if (b <=? e)%N then (Raise out_of_memory, N.succ e)
              else tick t e
  | None => tick t e
  end.

(** Accepts the strings whose length is a multiple of four. *)
Definition decode (s : string) : Result (list Byte.byte) :=
  if (N.of_nat (String.length s) mod 4 =? 0)%N
  then Ok (String.list_byte_of_string s)
  else Raise (mkException "binascii.Error" "Incorrect padding").

(** Accepts every file that is not empty. *)
Definition open (b : list Byte.byte) : Result (list Byte.byte) :=
  match b with
  | [] => Raise (mkException "UnidentifiedImageError"
                             "cannot identify image file")
  | _ => Ok b
  end.

(** Mean and standard deviation without rounding. *)
Definition mean (xs : list R) : R := fold_right Rplus 0 xs / INR (length xs).

Definition std (xs : list R) : R :=
  R_sqrt.sqrt (mean (map (fun x => Rsqr (x - mean xs)) xs)).

(** The bodies a simulated client sends: JSON objects in which each of the
    three fields the service knows is left out or has its declared type
    (the empty object leaves all three out). *)
Record Body := mkBody {
  sent_text : Field string;
  sent_max_length : Field (option Z);
  sent_image : Field string
}.

(** The entry of a validation report for a required field that the body
    does not have. *)
Definition missing (field : string) : json :=
  JDict [("type", JStr "missing");
         ("loc", JList [JStr "body"; JStr field]);
         ("msg", JStr "Field required")].

(** [text] is required, [max_length] is not. *)
Definition read_TextRequest (body : Body) : list json + TextBody :=
  match sent_text body with
  | Omitted => inl [missing "text"]
  | Given t => inr {| body_text := t;
                      body_max_length := sent_max_length body |}
  end.

(** [image] is required. *)
Definition read_ImageRequest (body : Body) : list json + ImageRequest :=
  match sent_image body with
  | Omitted => inl [missing "image"]
  | Given s => inr {| image := s |}
  end.

#[export] Instance platform (budget : option N) : Platform := {|
  Env := N;
  Tokens := string;
  Generated := string;
  PILImage := list Byte.byte;
  Pixels := list Byte.byte;
  ViTOutput := list Byte.byte;
  time_time := fun e => (IZR (Z.of_N e), e);
  gpt_tokenizer := fun s => tick s;
  gpt_model_generate := generate budget;
  gpt_tokenizer_decode := fun g => tick g;
  b64decode := decode;
  Image_open := open;
  vit_processor := fun i => tick i;
  vit_model := fun x => tick x;
  cls_token_shape := fun _ => tick [1%Z; 768%Z];
  client_send := N.succ;
  client_receive := N.succ;
  datetime_now_strftime := fun e => ("20240101_120000", e);
  Image_new_png := fun _ _ _ => String.list_byte_of_string "PNG.";
  b64encode := fun _ => "UE5HLg==";
  np_mean := mean;
  np_std := std;
  RequestBody := Body;
  validate_TextRequest := read_TextRequest;
  validate_ImageRequest := read_ImageRequest
|}.

Definition start (budget : option N) : @World (platform budget) :=
  mkWorld (platform budget) 0%N ∅ [].

End Sim.

(** The simulated platform on a machine whose wall clock is set back by an
    hour (a manual change, a step of the time daemon) while the first text
    is being generated: from the third tick on, readings are an hour
    behind. *)
Module SetBack.

Definition clock (e : N) : R :=
  if (e <? 3)%N then IZR (Z.of_N e) else IZR (Z.of_N e) - 3600.

#[export] Instance platform : Platform := {|
  Env := N;
  Tokens := string;
  Generated := string;
  PILImage := list Byte.byte;
  Pixels := list Byte.byte;
  ViTOutput := list Byte.byte;
  time_time := fun e => (clock e, e);
  gpt_tokenizer := fun s => Sim.tick s;
  gpt_model_generate := Sim.generate None;
  gpt_tokenizer_decode := fun g => Sim.tick g;
  b64decode := Sim.decode;
  Image_open := Sim.open;
  vit_processor := fun i => Sim.tick i;
  vit_model := fun x => Sim.tick x;
  cls_token_shape := fun _ => Sim.tick [1%Z; 768%Z];
  client_send := N.succ;
  client_receive := N.succ;
  datetime_now_strftime := fun e => ("20240101_120000", e);
  Image_new_png := fun _ _ _ => String.list_byte_of_string "PNG.";
  b64encode := fun _ => "UE5HLg==";
  np_mean := Sim.mean;
  np_std := Sim.std;
  RequestBody := Sim.Body;
  validate_TextRequest := Sim.read_TextRequest;
  validate_ImageRequest := Sim.read_ImageRequest
|}.

Definition start : @World platform := mkWorld platform 0%N ∅ [].

End SetBack.

(** The simulated platform with an image library that fails without a
    message: what it raises on a file it cannot read is an exception whose
    [str] is empty, as a bare [assert] or a [raise] without arguments
    gives. *)
Module Terse.

Definition open (b : list Byte.byte) : Result (list Byte.byte) :=
  Raise (mkException "AssertionError" EmptyString).

#[export] Instance platform : Platform := {|
  Env := N;
  Tokens := string;
  Generated := string;
  PILImage := list Byte.byte;
  Pixels := list Byte.byte;
  ViTOutput := list Byte.byte;
  time_time := fun e => (IZR (Z.of_N e), e);
  gpt_tokenizer := fun s => Sim.tick s;
  gpt_model_generate := Sim.generate None;
  gpt_tokenizer_decode := fun g => Sim.tick g;
  b64decode := Sim.decode;
  Image_open := open;
  vit_processor := fun i => Sim.tick i;
  vit_model := fun x => Sim.tick x;
  cls_token_shape := fun _ => Sim.tick [1%Z; 768%Z];
  client_send := N.succ;
  client_receive := N.succ;
  datetime_now_strftime := fun e => ("20240101_120000", e);
  Image_new_png := fun _ _ _ => String.list_byte_of_string "PNG.";
  b64encode := fun _ => "UE5HLg==";
  np_mean := Sim.mean;
  np_std := Sim.std;
  RequestBody := Sim.Body;
  validate_TextRequest := Sim.read_TextRequest;
  validate_ImageRequest := Sim.read_ImageRequest
|}.

Definition start : @World platform := mkWorld platform 0%N ∅ [].

End Terse.

(** ** Reading a trace *)

(** The statuses of the responses the client received, in order. *)
Fixpoint statuses (evs : list Event) : list Z :=
  match evs with
  | [] => []
  | EvResponse s :: evs' => s :: statuses evs'
  | _ :: evs' => statuses evs'
  end.

(** How many calls were issued to [path]. *)
Fixpoint calls_to (path : string) (evs : list Event) : nat :=
  match evs with
  | [] => O
  | EvRequest _ p :: evs' =>
      if String.eqb p path then S (calls_to path evs') else calls_to path evs'
  | _ :: evs' => calls_to path evs'
  end.

(** Calls are made one at a time: a request is issued only when no call is
    pending, a response arrives only for the pending call, and in the end
    no call is pending. *)
Fixpoint sequential_from (pending : bool) (evs : list Event) : bool :=
  match evs with
  | [] => negb pending
  | EvRequest _ _ :: evs' => negb pending && sequential_from true evs'
  | EvResponse _ :: evs' => pending && sequential_from false evs'
  | EvGenerate _ :: evs' => sequential_from pending evs'
  end.

Definition sequential (evs : list Event) : bool := sequential_from false evs.

(** What happens inside the service while a call is pending. *)
Definition internal (ev : Event) : Prop :=
  match ev with
  | EvGenerate _ => True
  | _ => False
  end.

(** What a run added to the trace. *)
Definition new_events `{P : Platform} (w w' : World) : list Event :=
  skipn (length (trace w)) (trace w').

Definition health_events : list Event :=
  [EvRequest "GET" "/health"; EvResponse 200].

(** A call of the GPT loop that is answered 200. *)
Definition gpt_ok_events : list Event :=
  [EvRequest "POST" "/generate_text"; EvGenerate (Some 50%Z); EvResponse 200].

(** A call of the ViT loop that is answered 200. *)
Definition vit_ok_events : list Event :=
  [EvRequest "POST" "/process_image"; EvResponse 200].

(** A run in which every call is answered 200. *)
Definition full_run_events : list Event :=
  health_events ++ concat (repeat gpt_ok_events 100)
                ++ concat (repeat vit_ok_events 100).

(** What the harness relies on in a handler: it does not touch the files;
    a returned dict has a float [processing_time] and the handler's events
    were [evs]; a failure has status 500 and only internal events. *)
Definition timed_handler `{P : Platform} (h : Handler) (evs : list Event)
  : Prop :=
  forall w,
    files (snd (h w)) = files w /\
    match fst (h w) with
    | Return content =>
        (exists p, getitem content "processing_time" = Ok (JFloat p)) /\
        trace (snd (h w)) = trace w ++ evs
    | RaiseHTTPException status _ =>
        status = 500%Z /\
        exists evs', trace (snd (h w)) = trace w ++ evs' /\
                     Forall internal evs'
    end.

(** ** Codec laws, and a platform that keeps them *)

(** What [create_test_image] relies on in the codecs: decoding undoes
    encoding, and PIL reads the PNG files it writes. *)
Class CodecLaws `{P : Platform} : Prop := {
  b64decode_b64encode : forall b, b64decode (b64encode b) = Ok b;
  Image_open_new_png :
    forall mode size color,
      exists img, Image_open (Image_new_png mode size color) = Ok img
}.

(** The simulated platform with a codec that is one-to-one: the encoding of
    a byte string is the string of its bytes. *)
Module Echo.

#[export] Instance platform : Platform := {|
  Env := N;
  Tokens := string;
  Generated := string;
  PILImage := list Byte.byte;
  Pixels := list Byte.byte;
  ViTOutput := list Byte.byte;
  time_time := fun e => (IZR (Z.of_N e), e);
  gpt_tokenizer := fun s => Sim.tick s;
  gpt_model_generate := Sim.generate None;
  gpt_tokenizer_decode := fun g => Sim.tick g;
  b64decode := fun s => Ok (String.list_byte_of_string s);
  Image_open := Sim.open;
  vit_processor := fun i => Sim.tick i;
  vit_model := fun x => Sim.tick x;
  cls_token_shape := fun _ => Sim.tick [1%Z; 768%Z];
  client_send := N.succ;
  client_receive := N.succ;
  datetime_now_strftime := fun e => ("20240101_120000", e);
  Image_new_png := fun _ _ _ => String.list_byte_of_string "PNG.";
  b64encode := String.string_of_list_byte;
  np_mean := Sim.mean;
  np_std := Sim.std;
  RequestBody := Sim.Body;
  validate_TextRequest := Sim.read_TextRequest;
  validate_ImageRequest := Sim.read_ImageRequest
|}.

Definition start : @World platform := mkWorld platform 0%N ∅ [].

End Echo.

(** ** The statistics on IEEE doubles

    [calculate_stats] once more, this time on the numbers Python and numpy
    compute with: binary64 floats, every operation rounded to nearest.  A
    list stands for the one-dimensional [float64] array that numpy makes of
    it. *)
Module Binary64.

Local Open Scope float_scope.

(** *** numpy's sum of a contiguous array of doubles

    [np.add.reduce] starts from 0 and adds what [pairwise_sum] gives for
    the array: fewer than 8 values are added from left to right; up to 128
    values go into 8 accumulators, which are added as a tree before the
    values that are left over; a longer array is split in two near the
    middle, at a multiple of 8. *)

(** [r[j] += a[j]] for the lanes of one block *)
Fixpoint add_lanes (r a : list float) : list float :=
  match r, a with
  | x :: r', y :: a' => (x + y) :: add_lanes r' a'
  | _, _ => r
  end.

(** [k] blocks of eight values added into the accumulators [r]; what is
    left of [a] comes back with them. *)
Fixpoint unrolled_blocks (k : nat) (r a : list float)
  : list float * list float :=
  match k with
  | O => (r, a)
  | S k' => unrolled_blocks k' (add_lanes r (firstn 8 a)) (skipn 8 a)
  end.

(** The branch for [8 <= n <= 128]. *)
Definition unrolled_sum (a : list float) : float :=
  let '(r, rest) :=
    unrolled_blocks (length a / 8 - 1) (firstn 8 a) (skipn 8 a) in
  match r with
  | [r0; r1; r2; r3; r4; r5; r6; r7] =>
      fold_left add rest (((r0 + r1) + (r2 + r3)) + ((r4 + r5) + (r6 + r7)))
  | _ => nan
  end.

(** [depth] bounds the number of times the array is split; the length of
    the array is always enough ([pairwise_sum_rec_depth]). *)
Fixpoint pairwise_sum_rec (depth : nat) (a : list float) : float :=
  let n := length a in
  if (n <? 8)%nat then fold_left add a 0
  else if (n <=? 128)%nat then unrolled_sum a
  else match depth with
       | O => nan
       | S depth' =>
           let n2 := (n / 2 - (n / 2) mod 8)%nat in
           pairwise_sum_rec depth' (firstn n2 a)
           + pairwise_sum_rec depth' (skipn n2 a)
       end.

Definition pairwise_sum (a : list float) : float :=
  pairwise_sum_rec (length a) a.

(** [np.add.reduce(a)] *)
Definition np_sum (a : list float) : float := 0 + pairwise_sum a.

(** The count of an array as a double. *)
Definition of_nat (n : nat) : float := of_uint63 (Uint63.of_Z (Z.of_nat n)).

(** [np.mean(a)]: the sum divided by the count.  On an empty array this is
    [0 / 0], which is [nan]. *)
Definition np_mean (a : list float) : float := np_sum a / of_nat (length a).

(** [np.minimum] and [np.maximum], as the reductions apply them: the
    accumulator is kept when it compares as required or is [nan]. *)
Definition np_minimum (x y : float) : float :=
  if (x <=? y) || is_nan x then x else y.

Definition np_maximum (x y : float) : float :=
  if (y <=? x) || is_nan x then x else y.

(** [np.min(a)] *)
Definition np_min (a : list float) : Result float :=
  match a with
  | [] => Raise (zero_size "minimum")
  | x :: a' => Ok (fold_left np_minimum a' x)
  end.

(** [np.max(a)] *)
Definition np_max (a : list float) : Result float :=
  match a with
  | [] => Raise (zero_size "maximum")
  | x :: a' => Ok (fold_left np_maximum a' x)
  end.

(** [np.std(a)]: the mean is subtracted from every value, the differences
    are squared, their sum is divided by the count, and the square root is
    taken. *)
Definition np_std (a : list float) : float :=
  let arrmean := np_mean a in
  let x := map (fun v => v - arrmean) a in
  let x := map (fun v => v * v) x in
  sqrt (np_sum x / of_nat (length a)).

(** *** The harness's records and [calculate_stats] *)

(** One entry of [gpt_results] / [vit_results]. *)
Record CallResult := mkCallResult {
  request_number : Z;
  total_time : float;
  server_processing_time : float
}.

(** The [stats] dict of [calculate_stats]. *)
Record Statistics := mkStatistics {
  average_total_time : float;
  average_processing_time : float;
  min_time : float;
  max_time : float;
  std_dev : float
}.

(** [calculate_stats(results, model_name)]; [model_name] is only printed. *)
Definition calculate_stats (results : list CallResult) (model_name : string)
  : Result Statistics :=
  let total_times := map total_time results in
  let processing_times := map server_processing_time results in
  let average_total := np_mean total_times in
  let average_processing := np_mean processing_times in
  match np_min total_times with
  | Raise e => Raise e
  | Ok lo =>
      match np_max total_times with
      | Raise e => Raise e
      | Ok hi =>
          Ok {| average_total_time := average_total;
                average_processing_time := average_processing;
                min_time := lo;
                max_time := hi;
                std_dev := np_std total_times |}
      end
  end.


End Binary64.

(** * Properties *)

(** ** Running monadic code *)

Section MonadFacts.
Context `{P : Platform}.

Lemma bind_ok {A B} (m : M A) (k : A -> M B) w a w1 :
  m w = (Ok a, w1) -> bind m k w = k a w1.
Proof. intros E. unfold bind. now rewrite E. Qed.

Lemma bind_raise {A B} (m : M A) (k : A -> M B) w e w1 :
  m w = (Raise e, w1) -> bind m k w = (Raise e, w1).
Proof. intros E. unfold bind. now rewrite E. Qed.

Lemma read_clock_env w :
  read_clock w = (now (env w),
                  mkWorld _ (snd (time_time (env w))) (files w) (trace w)).
Proof. unfold read_clock, now. now destruct (time_time (env w)). Qed.

Lemma now_time_eq w :
  now_time w = (Ok (now (env w)),
                mkWorld _ (snd (time_time (env w))) (files w) (trace w)).
Proof. unfold now_time. now rewrite read_clock_env. Qed.

Lemma call_eq {A} (f : Env -> Result A * Env) w :
  call f w = (fst (f (env w)),
              mkWorld _ (snd (f (env w))) (files w) (trace w)).
Proof. unfold call. now destruct (f (env w)). Qed.

End MonadFacts.

(** ** The handlers *)

Section HandlerFacts.
Context `{P : Platform}.

Lemma except_Exception_ok body w content w' :
  body w = (Ok content, w') -> except_Exception body w = (Return content, w').
Proof. intros E. unfold except_Exception. now rewrite E. Qed.

Lemma except_Exception_raise body w e w' :
  body w = (Raise e, w') ->
  except_Exception body w = (RaiseHTTPException 500 (str e), w').
Proof. intros E. unfold except_Exception. now rewrite E. Qed.

(** A handler built with [except_Exception] ends in a returned dict or in
    status 500. *)
Lemma except_Exception_status body w :
  status_code (respond (fst (except_Exception body w))) = 200%Z \/
  status_code (respond (fst (except_Exception body w))) = 500%Z.
Proof.
  unfold except_Exception.
  destruct (body w) as [[content | e] w']; simpl; auto.
Qed.

(** The test client always hands a response back: no exception of a
    handler reaches the caller. *)
Lemma client_request_eq method path (handler : Handler) w :
  client_request method path handler w =
  let w1 := mkWorld _ (client_send (env w)) (files w)
                    (trace w ++ [EvRequest method path]) in
  let response := respond (fst (handler w1)) in
  let w2 := snd (handler w1) in
  (Ok response,
   mkWorld _ (client_receive (env w2)) (files w2)
           (trace w2 ++ [EvResponse (status_code response)])).
Proof.
  unfold client_request, bind, emit, step, ret. simpl.
  now destruct (handler _) as [o w2].
Qed.

(** The test client with a body that validates is the client of the
    harness; with one that does not, the answer is 422 and only the
    transport has run. *)
Lemma client_post_eq {A : Type} path
    (validate : RequestBody -> list json + A) (handler : A -> Handler)
    body w :
  client_post path validate handler body w =
    match validate body with
    | inr request => client_request "POST" path (handler request) w
    | inl errors =>
        (Ok (unprocessable errors),
         mkWorld _ (client_receive (client_send (env w))) (files w)
                 (trace w ++ [EvRequest "POST" path; EvResponse 422]))
    end.
Proof.
  unfold client_post. destruct (validate body) as [errors | request];
    [| reflexivity].
  unfold bind, emit, step, ret. simpl. now rewrite <- app_assoc.
Qed.

End HandlerFacts.

(** C1. Whenever the body of [generate_text] or of [process_image] raises an
    exception [e], the handler raises [HTTPException] with status 500 and
    detail [str e], which the client receives as status 500 with body
    [{"detail": str e}].  Whatever body a client posts to either endpoint,
    the answer has status 200, 500 or 422: a body that passes validation
    reaches the handler and is answered 200 or 500; a body that does not is
    answered 422 with the validation errors as [detail], and the handler
    does not run (no model is called, only the transport has worked). *)
Theorem handler_failure_is_500 `{P : Platform} :
  (forall (request : TextRequest) (w : World) e w',
      generate_text_try request (fst (read_clock w)) (snd (read_clock w))
        = (Raise e, w') ->
      generate_text request w = (RaiseHTTPException 500 (str e), w') /\
      respond (fst (generate_text request w))
        = mkResponse 500 (JDict [("detail", JStr (str e))])) /\
  (forall (request : ImageRequest) (w : World) e w',
      process_image_try request (fst (read_clock w)) (snd (read_clock w))
        = (Raise e, w') ->
      process_image request w = (RaiseHTTPException 500 (str e), w') /\
      respond (fst (process_image request w))
        = mkResponse 500 (JDict [("detail", JStr (str e))])) /\
  (forall (body : RequestBody) (w : World),
      exists response w',
        client_post_generate_text body w = (Ok response, w') /\
        match validate_TextRequest body with
        | inr b =>
            post_generate_text b w = (Ok response, w') /\
            (status_code response = 200%Z \/ status_code response = 500%Z)
        | inl errors =>
            response = mkResponse 422 (JDict [("detail", JList errors)]) /\
            w' = mkWorld _ (client_receive (client_send (env w))) (files w)
                   (trace w ++ [EvRequest "POST" "/generate_text";
                                EvResponse 422])
        end) /\
  (forall (body : RequestBody) (w : World),
      exists response w',
        client_post_process_image body w = (Ok response, w') /\
        match validate_ImageRequest body with
        | inr b =>
            post_process_image b w = (Ok response, w') /\
            (status_code response = 200%Z \/ status_code response = 500%Z)
        | inl errors =>
            response = mkResponse 422 (JDict [("detail", JList errors)]) /\
            w' = mkWorld _ (client_receive (client_send (env w))) (files w)
                   (trace w ++ [EvRequest "POST" "/process_image";
                                EvResponse 422])
        end).
Proof.
  repeat split.
  - unfold generate_text. destruct (read_clock w) as [t w1]; simpl in *.
    now apply except_Exception_raise.
  - unfold generate_text. destruct (read_clock w) as [t w1]; simpl in *.
    now rewrite (except_Exception_raise _ _ _ _ H).
  - unfold process_image. destruct (read_clock w) as [t w1]; simpl in *.
    now apply except_Exception_raise.
  - unfold process_image. destruct (read_clock w) as [t w1]; simpl in *.
    now rewrite (except_Exception_raise _ _ _ _ H).
  - intros body w. unfold client_post_generate_text. rewrite client_post_eq.
    destruct (validate_TextRequest body) as [errors | b].
    + do 2 eexists. split; [reflexivity |]. split; reflexivity.
    + unfold post_generate_text. rewrite client_request_eq. cbv zeta.
      do 2 eexists. split; [reflexivity |]. split; [reflexivity |].
      unfold generate_text. destruct (read_clock _) as [t w1].
      apply except_Exception_status.
  - intros body w. unfold client_post_process_image. rewrite client_post_eq.
    destruct (validate_ImageRequest body) as [errors | b].
    + do 2 eexists. split; [reflexivity |]. split; reflexivity.
    + unfold post_process_image. rewrite client_request_eq. cbv zeta.
      do 2 eexists. split; [reflexivity |]. split; [reflexivity |].
      unfold process_image. destruct (read_clock _) as [t w1].
      apply except_Exception_status.
Qed.

(** On the simulated platform a request whose image is "abc" fails in the
    base64 decoder and is answered with status 500 and the decoder's
    message. *)
Lemma handler_failure_is_500_witness :
  process_image {| image := "abc" |} (Sim.start None)
    = (RaiseHTTPException 500 "Incorrect padding", Sim.start None) /\
  respond (fst (process_image {| image := "abc" |} (Sim.start None)))
    = mkResponse 500 (JDict [("detail", JStr "Incorrect padding")]).
Proof.
  exact (proj1 (proj2 (@handler_failure_is_500 (Sim.platform None)))
           {| image := "abc" |} (Sim.start None)
           (mkException "binascii.Error" "Incorrect padding")
           (Sim.start None) eq_refl).
Defined.

(** A POST to [/generate_text] whose body is the empty JSON object: the
    required field [text] is missing, and the answer is an error status
    that is not 500.  No exception was raised in the handler, which did not
    run. *)
Lemma body_without_text_is_422 :
  exists detail w',
    @client_post_generate_text (Sim.platform None)
      {| Sim.sent_text := Omitted; Sim.sent_max_length := Omitted;
         Sim.sent_image := Omitted |} (Sim.start None)
      = (Ok (mkResponse 422 detail), w') /\
    422%Z <> 200%Z /\ 422%Z <> 500%Z /\
    new_events (Sim.start None) w'
      = [EvRequest "POST" "/generate_text"; EvResponse 422].
Proof.
  do 2 eexists. split; [vm_compute; reflexivity |].
  split; [discriminate |]. split; [discriminate | reflexivity].
Qed.

(** C2. [GET /health] is answered with status 200 and the body
    [{"status": "healthy"}] in every state of the world; the handler reads
    nothing and changes nothing, and the call never raises. *)
Theorem health_always_healthy `{P : Platform} (w : World) :
  health_check w = (Return (JDict [("status", JStr "healthy")]), w) /\
  exists w',
    get_health w
      = (Ok (mkResponse 200 (JDict [("status", JStr "healthy")])), w') /\
    files w' = files w.
Proof.
  split; [reflexivity |].
  unfold get_health. rewrite client_request_eq. cbv zeta.
  eexists. split; reflexivity.
Qed.

Section GenerateText.
Context `{P : Platform}.

(** What [generate_text] does when the three library calls succeed. *)
Lemma generate_text_success (request : TextRequest) (w : World)
    toks e2 out e3 g e4 :
  gpt_tokenizer (text request) (snd (time_time (env w))) = (Ok toks, e2) ->
  gpt_model_generate toks (max_length request) e2 = (Ok out, e3) ->
  gpt_tokenizer_decode out e3 = (Ok g, e4) ->
  generate_text request w =
    (Return (JDict [("generated_text", JStr g);
                    ("processing_time", JFloat (now e4 - now (env w)))]),
     mkWorld _ (snd (time_time e4)) (files w)
             (trace w ++ [EvGenerate (max_length request)])).
Proof.
  intros Htok Hgen Hdec.
  unfold generate_text. rewrite read_clock_env.
  apply except_Exception_ok.
  unfold generate_text_try.
  erewrite bind_ok by (rewrite call_eq; simpl; rewrite Htok; reflexivity).
  erewrite bind_ok by reflexivity.
  erewrite bind_ok by (rewrite call_eq; simpl; rewrite Hgen; reflexivity).
  erewrite bind_ok by (rewrite call_eq; simpl; rewrite Hdec; reflexivity).
  erewrite bind_ok by (rewrite now_time_eq; reflexivity).
  reflexivity.
Qed.

End GenerateText.

(** C9. A body of [POST /generate_text] may leave [max_length] out, and the
    request then carries 100; a given value, whatever it is, is carried
    unchanged.  The handler hands the request's [max_length] to
    [gpt_model.generate] as it is: when the tokenizer, the generation with
    that very value and the decoding succeed, the generated text is
    returned, with no check of the handler's own on the text or on the
    number. *)
Theorem max_length_defaults_to_100 `{P : Platform} :
  (forall t : string,
      TextRequest_init {| body_text := t; body_max_length := Omitted |}
        = {| text := t; max_length := Some 100%Z |}) /\
  (forall (t : string) (v : option Z),
      TextRequest_init {| body_text := t; body_max_length := Given v |}
        = {| text := t; max_length := v |}) /\
  (forall (body : TextBody) (w : World) toks e2 out e3 g e4,
      let used := match body_max_length body with
                  | Omitted => Some 100%Z
                  | Given v => v
                  end in
      gpt_tokenizer (body_text body) (snd (time_time (env w)))
        = (Ok toks, e2) ->
      gpt_model_generate toks used e2 = (Ok out, e3) ->
      gpt_tokenizer_decode out e3 = (Ok g, e4) ->
      generate_text (TextRequest_init body) w =
        (Return (JDict [("generated_text", JStr g);
                        ("processing_time", JFloat (now e4 - now (env w)))]),
         mkWorld _ (snd (time_time e4)) (files w)
                 (trace w ++ [EvGenerate used]))).
Proof.
  repeat split.
  intros body w toks e2 out e3 g e4 used Htok Hgen Hdec.
  apply (generate_text_success (TextRequest_init body) w toks e2 out e3 g e4);
    assumption.
Qed.

(** On the simulated platform, a body without [max_length] makes the
    handler generate with 100. *)
Lemma max_length_defaults_to_100_witness :
  generate_text
    (TextRequest_init {| body_text := "Once upon a time";
                         body_max_length := Omitted |})
    (Sim.start None) =
  (Return (JDict [("generated_text", JStr "Once upon a time");
                  ("processing_time",
                   JFloat (@now (Sim.platform None) 3%N
                           - @now (Sim.platform None) 0%N))]),
   mkWorld (Sim.platform None) 3%N ∅ [EvGenerate (Some 100%Z)]).
Proof.
  exact (proj2 (proj2 (@max_length_defaults_to_100 (Sim.platform None)))
           {| body_text := "Once upon a time"; body_max_length := Omitted |}
           (Sim.start None) "Once upon a time" 1%N "Once upon a time" 2%N
           "Once upon a time" 3%N eq_refl eq_refl eq_refl).
Defined.

Section ProcessImage.
Context `{P : Platform}.

(** A failure of either decoder is what [process_image] reports. *)
Lemma process_image_decode_failure (request : ImageRequest) (w : World) e :
  b64decode (image request) = Raise e \/
  (exists b, b64decode (image request) = Ok b /\ Image_open b = Raise e) ->
  process_image request w =
    (RaiseHTTPException 500 (str e),
     mkWorld _ (snd (time_time (env w))) (files w) (trace w)).
Proof.
  intros H. unfold process_image. rewrite read_clock_env.
  apply except_Exception_raise. unfold process_image_try.
  destruct H as [H | [b [Hb Ho]]].
  - apply bind_raise. unfold lift_result. now rewrite H.
  - erewrite bind_ok by (unfold lift_result; rewrite Hb; reflexivity).
    apply bind_raise. unfold lift_result. now rewrite Ho.
Qed.


End ProcessImage.




(** ** Descriptive statistics *)

Section Statistics.
Context `{P : Platform}.

(** On a list that is not empty [calculate_stats] returns, and this is
    what it returns. *)
Lemma calculate_stats_nonempty (results : list CallResult) name :
  results <> [] ->
  exists r rs,
    results = r :: rs /\
    calculate_stats results name =
      Ok {| average_total_time := np_mean (map total_time results);
            average_processing_time :=
              np_mean (map server_processing_time results);
            min_time := fold_left Rmin (map total_time rs) (total_time r);
            max_time := fold_left Rmax (map total_time rs) (total_time r);
            std_dev := np_std (map total_time results) |}.
Proof.
  destruct results as [| r rs]; [congruence |]. intros _.
  exists r, rs. split; reflexivity.
Qed.

Lemma calculate_stats_empty name :
  calculate_stats [] name = Raise (zero_size "minimum").
Proof. reflexivity. Qed.

End Statistics.

(** ** The statistics on IEEE doubles *)

(** *** The order of binary64 floats *)

Section FloatOrder.









Local Open Scope float_scope.







End FloatOrder.

(** *** numpy's reductions *)

Section Reductions.
Import Binary64.
Local Open Scope float_scope.






(** The recursion of [pairwise_sum] never runs out of depth: any bound
    that is at least the length of the array gives the same sum. *)
Lemma pairwise_sum_rec_depth d : forall d' a,
  (length a <= d)%nat -> (length a <= d')%nat ->
  pairwise_sum_rec d a = pairwise_sum_rec d' a.
Proof.
  induction d as [| d IH]; intros d' a Hd Hd'.
  - destruct a; [| simpl in Hd; lia]. now destruct d'.
  - destruct d' as [| d'].
    + destruct a; [| simpl in Hd'; lia]. reflexivity.
    + cbn [pairwise_sum_rec].
      destruct (length a <? 8)%nat eqn:H8; [reflexivity |].
      destruct (length a <=? 128)%nat eqn:H128; [reflexivity |].
      apply Nat.leb_gt in H128.
      set (n := length a) in *.
      assert (Hn2 : (0 < n / 2 - (n / 2) mod 8 < n)%nat).
      { pose proof (Nat.div_mod_eq n 2).
        pose proof (Nat.mod_upper_bound n 2).
        pose proof (Nat.mod_upper_bound (n / 2) 8). lia. }
      f_equal; apply IH.
      all: rewrite ?length_firstn, ?length_skipn; fold n; lia.
Qed.



End Reductions.

Section StatisticsOnDoubles.
Import Binary64.
Local Open Scope float_scope.




(** Sums that overflow in both directions leave no number: the standard
    deviation of these sixteen values is [nan], and [nan >= 0] is false. *)
Lemma std_dev_can_be_nan :
  let huge := 0x1.e42b5e3dd3de6p+1023 in
  let a := [huge; - huge; 0; 0; 0; 0; 0; 0;
            huge; - huge; 0; 0; 0; 0; 0; 0] in
  is_nan (np_std a) = true /\ (0 <=? np_std a) = false.
Proof. split; vm_compute; reflexivity. Qed.



End StatisticsOnDoubles.

(** ** The harness *)

Section HarnessFacts.
Context `{P : Platform}.

Lemma generate_text_timed request :
  timed_handler (generate_text request) [EvGenerate (max_length request)].
Proof.
  intros w.
  unfold generate_text, except_Exception, generate_text_try, bind, call,
    emit, now_time, read_clock, ret.
  destruct (time_time (env w)) as [t0 e0]; simpl.
  destruct (gpt_tokenizer _ e0) as [[toks | ex] e1]; simpl.
  - destruct (gpt_model_generate toks _ e1) as [[out | ex] e2]; simpl.
    + destruct (gpt_tokenizer_decode out e2) as [[g | ex] e3]; simpl.
      * destruct (time_time e3) as [t1 e4]; simpl.
        split; [reflexivity |]. split; [| reflexivity].
        now exists (t1 - t0).
      * split; [reflexivity |]. split; [reflexivity |].
        eexists. split; [reflexivity |]. now repeat constructor.
    + split; [reflexivity |]. split; [reflexivity |].
      eexists. split; [reflexivity |]. now repeat constructor.
  - split; [reflexivity |]. split; [reflexivity |].
    exists []. split; [now rewrite app_nil_r | constructor].
Qed.

Lemma process_image_timed request : timed_handler (process_image request) [].
Proof.
  intros w.
  assert (Hfail : forall A (x : A) (t : list Event),
             x = x /\ 500%Z = 500%Z /\
             exists evs', t = t ++ evs' /\ Forall internal evs').
  { intros. split; [reflexivity |]. split; [reflexivity |].
    exists []. split; [now rewrite app_nil_r | constructor]. }
  unfold process_image, except_Exception, process_image_try, bind, call,
    lift_result, now_time, read_clock, ret.
  destruct (time_time (env w)) as [t0 e0]; simpl.
  destruct (b64decode _) as [bytes | ex]; simpl; [| apply Hfail].
  destruct (Image_open bytes) as [img | ex]; simpl; [| apply Hfail].
  destruct (vit_processor img e0) as [[px | ex] e1]; simpl; [| apply Hfail].
  destruct (vit_model px e1) as [[out | ex] e2]; simpl; [| apply Hfail].
  destruct (cls_token_shape out e2) as [[sh | ex] e3]; simpl; [| apply Hfail].
  destruct (time_time e3) as [t1 e4]; simpl.
  split; [reflexivity |]. split; [| now rewrite app_nil_r].
  now exists (t1 - t0).
Qed.

(** One timed call: it is answered 200 and its record is appended, or the
    assertion on the status fails right after the response. *)
Lemma timed_call_cases (h : Handler) evs method path i results w :
  timed_handler h evs ->
  exists r w',
    timed_call (client_request method path h) i results w = (r, w') /\
    files w' = files w /\
    ((exists c, r = Ok (results ++ [c]) /\
                request_number c = (i + 1)%Z /\
                trace w' = trace w ++ EvRequest method path :: evs
                                   ++ [EvResponse 200]) \/
     (r = Raise AssertionError /\
      exists evs', Forall internal evs' /\
                   trace w' = trace w ++ EvRequest method path :: evs'
                                      ++ [EvResponse 500])).
Proof.
  intros Hh. unfold timed_call.
  rewrite (bind_ok _ _ _ _ _ (now_time_eq w)).
  rewrite (bind_ok _ _ _ _ _ (client_request_eq method path h _)).
  cbv zeta. cbn [env files trace].
  match goal with |- context [h ?w1] => destruct (Hh w1) as [Hf Ho];
    destruct (h w1) as [o w2] end.
  cbn [fst snd env files trace] in *.
  rewrite (bind_ok _ _ _ _ _ (now_time_eq _)). cbn [env files trace].
  destruct o as [content | status detail].
  - destruct Ho as [[p Hp] Ht]. cbn [respond status_code response_json].
    unfold bind at 1. cbn [assert Z.eqb Pos.eqb ret].
    unfold bind at 1. unfold lift_result at 1. rewrite Hp.
    unfold bind at 1. unfold lift_result, as_float, ret.
    do 2 eexists. split; [reflexivity |]. cbn [files trace].
    split; [assumption |]. left. eexists. split; [reflexivity |].
    split; [reflexivity |]. rewrite Ht. now rewrite <- !app_assoc.
  - destruct Ho as [-> (evs' & Ht & Hint)].
    cbn [respond status_code response_json].
    unfold bind at 1. cbn [assert Z.eqb Pos.eqb raise].
    do 2 eexists. split; [reflexivity |]. cbn [files trace].
    split; [assumption |]. right. split; [reflexivity |].
    exists evs'. split; [assumption |]. rewrite Ht.
    now rewrite <- !app_assoc.
Qed.

End HarnessFacts.

Section RunFacts.
Context `{P : Platform}.

(** A loop of timed calls: all [n] calls are answered 200 and recorded in
    order, or the loop stops at the first call that is not. *)
Lemma loop_cases (h : Handler) evs method path :
  timed_handler h evs ->
  forall n a results w,
  exists r w',
    for_in (map Z.of_nat (seq a n))
           (timed_call (client_request method path h)) results w = (r, w') /\
    files w' = files w /\
    ((exists cs, r = Ok (results ++ cs) /\
                 map request_number cs = map Z.of_nat (seq (S a) n) /\
                 trace w' = trace w ++
                   concat (repeat (EvRequest method path :: evs
                                     ++ [EvResponse 200]) n)) \/
     (r = Raise AssertionError /\
      exists k evs', (k < n)%nat /\ Forall internal evs' /\
        trace w' = trace w ++
          concat (repeat (EvRequest method path :: evs
                            ++ [EvResponse 200]) k)
          ++ EvRequest method path :: evs' ++ [EvResponse 500])).
Proof.
  intros Hh. induction n as [| n IH]; intros a results w.
  - exists (Ok results), w. split; [reflexivity |]. split; [reflexivity |].
    left. exists []. simpl. now rewrite !app_nil_r.
  - cbn [seq map for_in].
    destruct (timed_call_cases h evs method path (Z.of_nat a) results w Hh)
      as (r & w1 & E & Hf & [(c & -> & Hc & Ht) | (-> & evs' & Hint & Ht)]).
    + rewrite (bind_ok _ _ _ _ _ E).
      destruct (IH (S a) (results ++ [c]) w1)
        as (r2 & w2 & E2 & Hf2 &
            [(cs & -> & Hcs & Ht2) | (-> & k & evs' & Hk & Hint & Ht2)]).
      * exists (Ok ((results ++ [c]) ++ cs)), w2.
        split; [exact E2 |]. split; [congruence |]. left.
        exists (c :: cs). split; [now rewrite <- app_assoc |]. split.
        -- cbn [map seq]. rewrite Hcs, Hc. f_equal. lia.
        -- rewrite Ht2, Ht. cbn [repeat concat].
           now rewrite <- !app_assoc.
      * exists (Raise AssertionError), w2.
        split; [exact E2 |]. split; [congruence |]. right.
        split; [reflexivity |]. exists (S k), evs'.
        split; [lia |]. split; [assumption |].
        rewrite Ht2, Ht. cbn [repeat concat]. now rewrite <- !app_assoc.
    + rewrite (bind_raise _ _ _ _ _ E).
      exists (Raise AssertionError), w1.
      split; [reflexivity |]. split; [assumption |]. right.
      split; [reflexivity |]. exists O, evs'.
      split; [lia |]. split; [assumption |]. exact Ht.
Qed.

Lemma test_health_eq w :
  test_health w =
    (Ok tt, mkWorld _ (client_receive (client_send (env w))) (files w)
                    (trace w ++ health_events)).
Proof.
  unfold test_health, get_health.
  rewrite (bind_ok _ _ _ _ _ (client_request_eq _ _ _ _)).
  cbv zeta. cbn. unfold health_events. now rewrite <- app_assoc.
Qed.

(** A list with a hundred request numbers is not empty. *)
Lemma numbered_nonempty (cs : list CallResult) :
  map request_number cs = map Z.of_nat (seq 1 100) -> cs <> [].
Proof. intros H ->. discriminate H. Qed.

(** The two ways a run can end. *)
Lemma run_cases w :
  exists r w',
    run_performance_tests w = (r, w') /\
    ((r = Ok tt /\
      trace w' = trace w ++ full_run_events /\
      exists gpt_results gpt_stats vit_results vit_stats timestamp,
        map request_number gpt_results = map Z.of_nat (seq 1 100) /\
        map request_number vit_results = map Z.of_nat (seq 1 100) /\
        calculate_stats gpt_results "GPT" = Ok gpt_stats /\
        calculate_stats vit_results "ViT" = Ok vit_stats /\
        files w' = <[results_file_name timestamp :=
                       results_json gpt_results gpt_stats
                                    vit_results vit_stats]> (files w)) \/
     (r = Raise AssertionError /\
      files w' = files w /\
      exists kg kv path evs',
        (((kg < 100)%nat /\ kv = O /\ path = "/generate_text") \/
         (kg = 100%nat /\ (kv < 100)%nat /\ path = "/process_image")) /\
        Forall internal evs' /\
        trace w' = trace w ++ health_events
                     ++ concat (repeat gpt_ok_events kg)
                     ++ concat (repeat vit_ok_events kv)
                     ++ EvRequest "POST" path :: evs' ++ [EvResponse 500])).
Proof.
  unfold run_performance_tests.
  rewrite (bind_ok _ _ _ _ _ (test_health_eq w)).
  set (w0 := mkWorld _ _ _ _).
  unfold gpt_call, post_generate_text, range.
  destruct (loop_cases _ _ "POST" "/generate_text"
              (generate_text_timed
                 (TextRequest_init {| body_text := "Once upon a time";
                                      body_max_length := Given (Some 50%Z) |}))
              100 O [] w0)
    as (r1 & w1 & E1 & Hf1 &
        [(gs & -> & Hgs & Ht1) | (-> & k & evs' & Hk & Hint & Ht1)]).
  2: { rewrite (bind_raise _ _ _ _ _ E1). do 2 eexists.
       split; [reflexivity |]. right. split; [reflexivity |].
       split; [exact Hf1 |]. exists k, O, "/generate_text", evs'.
       split; [left; now repeat split |]. split; [assumption |].
       rewrite Ht1. subst w0. cbn [trace max_length TextRequest_init
         body_max_length repeat concat app].
       now rewrite <- !app_assoc. }
  rewrite (bind_ok _ _ _ _ _ E1). cbv zeta.
  unfold vit_call, post_process_image.
  destruct (loop_cases _ _ "POST" "/process_image"
              (process_image_timed {| image := create_test_image |})
              100 O [] w1)
    as (r2 & w2 & E2 & Hf2 &
        [(vs & -> & Hvs & Ht2) | (-> & k & evs' & Hk & Hint & Ht2)]).
  2: { rewrite (bind_raise _ _ _ _ _ E2). do 2 eexists.
       split; [reflexivity |]. right. split; [reflexivity |].
       split; [now rewrite Hf2, Hf1 |].
       exists 100%nat, k, "/process_image", evs'.
       split; [right; now repeat split |]. split; [assumption |].
       rewrite Ht2, Ht1. subst w0. cbn [trace max_length TextRequest_init
         body_max_length app]. unfold gpt_ok_events, vit_ok_events.
       now rewrite <- !app_assoc. }
  rewrite (bind_ok _ _ _ _ _ E2). cbn [app] in *.
  destruct (calculate_stats_nonempty gs "GPT" (numbered_nonempty gs Hgs))
    as (g0 & gs' & Hg0 & Sg).
  destruct (calculate_stats_nonempty vs "ViT" (numbered_nonempty vs Hvs))
    as (v0 & vs' & Hv0 & Sv).
  unfold bind at 1. unfold lift_result at 1. rewrite Sg.
  unfold bind at 1. unfold lift_result at 1. rewrite Sv.
  unfold bind at 1. rewrite call_eq.
  destruct (datetime_now_strftime (env w2)) as [timestamp e3].
  cbn [fst snd]. unfold write_file. cbn [env files trace].
  do 2 eexists. split; [reflexivity |]. left. split; [reflexivity |].
  cbn [trace files]. split.
  - rewrite Ht2, Ht1. subst w0. cbn [trace max_length TextRequest_init
      body_max_length app]. unfold full_run_events, gpt_ok_events,
      vit_ok_events. now rewrite <- !app_assoc.
  - do 5 eexists.
    split; [exact Hgs |]. split; [exact Hvs |].
    split; [exact Sg |]. split; [exact Sv |].
    rewrite Hf2, Hf1. reflexivity.
Qed.

End RunFacts.

(** ** Timing *)

Section ClockFacts.
Context `{P : Platform} `{Hclock : !SaneClock}.

Lemma time_time_reads e t e' :
  time_time e = (t, e') -> t = now e /\ now e <= now e'.
Proof.
  intros E. pose proof (time_time_monotone e) as Hm.
  unfold now at 1. rewrite E in *. simpl in *. now split.
Qed.

(** What a handler that returns a dict has measured: its [processing_time]
    is the reading [now e_end] of its second look at the clock minus the
    reading of its first, and the second look is the last thing it did to
    the machine. *)
Lemma generate_text_measures request w content w' :
  generate_text request w = (Return content, w') ->
  exists e_end,
    env w' = snd (time_time e_end) /\
    getitem content "processing_time"
      = Ok (JFloat (now e_end - now (env w))) /\
    now (env w) <= now e_end.
Proof.
  unfold generate_text, except_Exception, generate_text_try, bind, call,
    emit, now_time, read_clock, ret.
  destruct (time_time (env w)) as [t0 e0] eqn:E0; simpl.
  destruct (gpt_tokenizer _ e0) as [[toks | ex] e1] eqn:E1; simpl;
    [| discriminate].
  destruct (gpt_model_generate toks _ e1) as [[out | ex] e2] eqn:E2; simpl;
    [| discriminate].
  destruct (gpt_tokenizer_decode out e2) as [[g | ex] e3] eqn:E3; simpl;
    [| discriminate].
  destruct (time_time e3) as [t1 e4] eqn:E4; simpl.
  intros H. injection H as <- <-. exists e3. cbn [env].
  assert (Ht0 : t0 = now (env w)) by (unfold now; now rewrite E0).
  assert (Ht1 : t1 = now e3) by (unfold now; now rewrite E4).
  split; [now rewrite E4 |]. split; [simpl; now rewrite Ht0, Ht1 |].
  pose proof (time_time_monotone (env w)) as H0. rewrite E0 in H0.
  pose proof (gpt_tokenizer_monotone (text request) e0) as H1.
  pose proof (gpt_model_generate_monotone toks (max_length request) e1) as H2.
  pose proof (gpt_tokenizer_decode_monotone out e2) as H3.
  rewrite E1 in H1. rewrite E2 in H2. rewrite E3 in H3. simpl in *. lra.
Qed.

Lemma process_image_measures request w content w' :
  process_image request w = (Return content, w') ->
  exists e_end,
    env w' = snd (time_time e_end) /\
    getitem content "processing_time"
      = Ok (JFloat (now e_end - now (env w))) /\
    now (env w) <= now e_end.
Proof.
  unfold process_image, except_Exception, process_image_try, bind, call,
    lift_result, now_time, read_clock, ret.
  destruct (time_time (env w)) as [t0 e0] eqn:E0; simpl.
  destruct (b64decode _) as [bytes | ex]; simpl; [| discriminate].
  destruct (Image_open bytes) as [img | ex]; simpl; [| discriminate].
  destruct (vit_processor img e0) as [[px | ex] e1] eqn:E1; simpl;
    [| discriminate].
  destruct (vit_model px e1) as [[out | ex] e2] eqn:E2; simpl;
    [| discriminate].
  destruct (cls_token_shape out e2) as [[sh | ex] e3] eqn:E3; simpl;
    [| discriminate].
  destruct (time_time e3) as [t1 e4] eqn:E4; simpl.
  intros H. injection H as <- <-. exists e3. cbn [env].
  assert (Ht0 : t0 = now (env w)) by (unfold now; now rewrite E0).
  assert (Ht1 : t1 = now e3) by (unfold now; now rewrite E4).
  split; [now rewrite E4 |]. split; [simpl; now rewrite Ht0, Ht1 |].
  pose proof (time_time_monotone (env w)) as H0. rewrite E0 in H0.
  pose proof (vit_processor_monotone img e0) as H1.
  pose proof (vit_model_monotone px e1) as H2.
  pose proof (cls_token_shape_monotone out e2) as H3.
  rewrite E1 in H1. rewrite E2 in H2. rewrite E3 in H3. simpl in *. lra.
Qed.

(** One call of the harness that is answered 200.  The record it appends
    holds, as [server_processing_time], the [processing_time] of the dict
    the handler returned, and as [total_time] the reading of the harness's
    clock after the response is back minus its reading before the request
    left.  The handler's two readings were taken in between. *)
Lemma timed_call_clock (h : Handler) method path i results w results' w' :
  (forall w content w',
      h w = (Return content, w') ->
      exists e_end,
        env w' = snd (time_time e_end) /\
        getitem content "processing_time"
          = Ok (JFloat (now e_end - now (env w))) /\
        now (env w) <= now e_end) ->
  timed_call (client_request method path h) i results w = (Ok results', w') ->
  exists c content w2 e_end,
    results' = results ++ [c] /\
    request_number c = (i + 1)%Z /\
    h (handler_start method path w) = (Return content, w2) /\
    env w2 = snd (time_time e_end) /\
    getitem content "processing_time"
      = Ok (JFloat (server_processing_time c)) /\
    server_processing_time c
      = now e_end - now (env (handler_start method path w)) /\
    total_time c = now (client_receive (env w2)) - now (env w) /\
    0 <= server_processing_time c /\
    server_processing_time c < total_time c.
Proof.
  intros Hh. unfold timed_call.
  rewrite (bind_ok _ _ _ _ _ (now_time_eq w)).
  rewrite (bind_ok _ _ _ _ _ (client_request_eq method path h _)).
  cbv zeta. cbn [env files trace]. fold (handler_start method path w).
  pose proof (Hh (handler_start method path w)) as Hw1.
  destruct (h (handler_start method path w)) as [o w2].
  cbn [fst snd env files trace] in *.
  rewrite (bind_ok _ _ _ _ _ (now_time_eq _)). cbn [env files trace].
  destruct o as [content | status detail].
  - destruct (Hw1 content w2 eq_refl) as (e_end & He & Hp & Hle).
    cbn [respond status_code response_json].
    unfold bind at 1. cbn [assert Z.eqb Pos.eqb ret].
    unfold bind at 1. unfold lift_result at 1. rewrite Hp.
    unfold bind at 1. unfold lift_result, as_float, ret.
    intros H. injection H as <- <-.
    eexists _, content, w2, e_end.
    cbn [server_processing_time total_time request_number].
    split; [reflexivity |]. split; [reflexivity |].
    split; [reflexivity |]. split; [exact He |]. split; [exact Hp |].
    split; [reflexivity |]. split; [reflexivity |].
    pose proof (time_time_monotone (env w)) as H0.
    pose proof (client_send_takes_time (snd (time_time (env w)))) as H1.
    pose proof (time_time_monotone e_end) as H2. rewrite <- He in H2.
    pose proof (client_receive_takes_time (env w2)) as H3.
    unfold handler_start in *.
    cbn [env server_processing_time total_time] in *. lra.
  - cbn [respond status_code response_json].
    unfold bind at 1. unfold assert.
    destruct (Z.eqb status 200); [| discriminate].
    unfold bind at 1. unfold ret at 1.
    unfold bind at 1. unfold lift_result at 1. simpl. discriminate.
Qed.

End ClockFacts.

(** The simulated clock is sane. *)
Lemma Sim_sane_clock budget : @SaneClock (Sim.platform budget).
Proof.
  assert (Hs : forall e : N, IZR (Z.of_N e) <= IZR (Z.of_N (N.succ e)))
    by (intros e; apply IZR_le; lia).
  assert (Ht : forall e : N, IZR (Z.of_N e) < IZR (Z.of_N (N.succ e)))
    by (intros e; apply IZR_lt; lia).
  split; unfold now; simpl; intros; try apply Hs; try apply Ht; try lra.
  unfold Sim.generate, Sim.tick.
  destruct budget as [b |]; [destruct (b <=? e)%N |]; simpl; apply Hs.
Qed.

(** C4. With a wall clock that does not run backwards while a call is
    served and a transport that takes time, every call of the harness that
    is answered 200, to either POST endpoint and whatever the body, appends
    a record in which [server_processing_time] is the [processing_time] of
    the response, which is the handler's reading of the clock at its end
    minus its reading at its start; [total_time] is the harness's reading
    after the response is back minus its reading before the request left;
    and [server_processing_time] is not negative and strictly below
    [total_time].  In every dict a handler returns, whoever called it,
    [processing_time] is such a difference of two readings and is not
    negative. *)
Theorem processing_time_below_total `{P : Platform} `{Hclock : !SaneClock} :
  (forall (body : TextBody) i results w results' w',
      timed_call (post_generate_text body) i results w = (Ok results', w') ->
      exists c content w2 e_end,
        results' = results ++ [c] /\
        request_number c = (i + 1)%Z /\
        generate_text (TextRequest_init body)
          (handler_start "POST" "/generate_text" w) = (Return content, w2) /\
        env w2 = snd (time_time e_end) /\
        getitem content "processing_time"
          = Ok (JFloat (server_processing_time c)) /\
        server_processing_time c
          = now e_end - now (client_send (snd (time_time (env w)))) /\
        total_time c = now (client_receive (env w2)) - now (env w) /\
        0 <= server_processing_time c /\
        server_processing_time c < total_time c) /\
  (forall (body : ImageRequest) i results w results' w',
      timed_call (post_process_image body) i results w = (Ok results', w') ->
      exists c content w2 e_end,
        results' = results ++ [c] /\
        request_number c = (i + 1)%Z /\
        process_image body
          (handler_start "POST" "/process_image" w) = (Return content, w2) /\
        env w2 = snd (time_time e_end) /\
        getitem content "processing_time"
          = Ok (JFloat (server_processing_time c)) /\
        server_processing_time c
          = now e_end - now (client_send (snd (time_time (env w)))) /\
        total_time c = now (client_receive (env w2)) - now (env w) /\
        0 <= server_processing_time c /\
        server_processing_time c < total_time c) /\
  (forall (request : TextRequest) w content w',
      generate_text request w = (Return content, w') ->
      exists e_end,
        env w' = snd (time_time e_end) /\
        getitem content "processing_time"
          = Ok (JFloat (now e_end - now (env w))) /\
        0 <= now e_end - now (env w)) /\
  (forall (request : ImageRequest) w content w',
      process_image request w = (Return content, w') ->
      exists e_end,
        env w' = snd (time_time e_end) /\
        getitem content "processing_time"
          = Ok (JFloat (now e_end - now (env w))) /\
        0 <= now e_end - now (env w)).
Proof.
  split; [| split; [| split]].
  - intros body i results w results' w'. unfold post_generate_text.
    apply timed_call_clock. apply generate_text_measures.
  - intros body i results w results' w'. unfold post_process_image.
    apply timed_call_clock. apply process_image_measures.
  - intros request w content w' H.
    destruct (generate_text_measures _ _ _ _ H) as (e_end & He & Hp & Hle).
    exists e_end. split; [exact He |]. split; [exact Hp | lra].
  - intros request w content w' H.
    destruct (process_image_measures _ _ _ _ H) as (e_end & He & Hp & Hle).
    exists e_end. split; [exact He |]. split; [exact Hp | lra].
Qed.

(** The first call of the GPT loop on the simulated platform: the handler
    works from tick 1 to tick 4, the harness measures from tick 0 to
    tick 5. *)
Lemma processing_time_below_total_witness :
  exists c,
    fst (timed_call
           (post_generate_text {| body_text := "Once upon a time";
                                  body_max_length := Given (Some 50%Z) |})
           0 [] (Sim.start None))
      = Ok [{| request_number := 1; total_time := 5 - 0;
               server_processing_time := 4 - 1 |}] /\
    [{| request_number := 1; total_time := 5 - 0;
        server_processing_time := 4 - 1 |}] = [] ++ [c] /\
    0 <= server_processing_time c /\
    server_processing_time c < total_time c.
Proof.
  pose (call := timed_call
                  (post_generate_text
                     {| body_text := "Once upon a time";
                        body_max_length := Given (Some 50%Z) |})
                  0 [] (Sim.start None)).
  assert (Efst : fst call
                 = Ok [{| request_number := 1; total_time := 5 - 0;
                          server_processing_time := 4 - 1 |}])
    by (vm_compute; reflexivity).
  assert (E : call = (Ok [{| request_number := 1; total_time := 5 - 0;
                             server_processing_time := 4 - 1 |}], snd call))
    by (rewrite <- Efst; apply surjective_pairing).
  destruct (proj1 (@processing_time_below_total (Sim.platform None)
                     (Sim_sane_clock None)) _ _ _ _ _ _ E)
    as (c & content & w2 & e_end & E1 & _ & _ & _ & _ & _ & _ & H0 & H1).
  exists c. split; [exact Efst |]. split; [exact E1 |].
  split; [exact H0 | exact H1].
Defined.

(** The same call on a machine whose clock is set back by an hour while
    the text is generated: the call is answered 200, and the
    [processing_time] of the response, which the harness records, is
    negative (and so is the [total_time]). *)
Lemma clock_set_back_gives_negative_time :
  exists c w',
    timed_call
      (post_generate_text {| body_text := "Once upon a time";
                             body_max_length := Given (Some 50%Z) |})
      0 [] SetBack.start = (Ok [c], w') /\
    server_processing_time c = (4 - 3600) - 1 /\
    total_time c = (5 - 3600) - 0 /\
    server_processing_time c < 0 /\
    total_time c < 0.
Proof.
  exists {| request_number := 1;
            total_time := (5 - 3600) - 0;
            server_processing_time := (4 - 3600) - 1 |}.
  eexists. split; [vm_compute; reflexivity |].
  cbn [server_processing_time total_time].
  split; [reflexivity |]. split; [reflexivity |]. split; lra.
Qed.

(** ** Whole runs *)

Section TraceFacts.

Lemma statuses_app evs1 evs2 :
  statuses (evs1 ++ evs2) = statuses evs1 ++ statuses evs2.
Proof.
  induction evs1 as [| [m p | s | ml] evs1 IH]; simpl; congruence.
Qed.

Lemma statuses_internal evs : Forall internal evs -> statuses evs = [].
Proof.
  induction 1 as [| [m p | s | ml] evs Hx _ IH]; simpl in *;
    [reflexivity | contradiction | contradiction | assumption].
Qed.

Lemma statuses_gpt_ok k :
  statuses (concat (repeat gpt_ok_events k)) = repeat 200%Z k.
Proof. induction k as [| k IH]; simpl; congruence. Qed.

Lemma statuses_vit_ok k :
  statuses (concat (repeat vit_ok_events k)) = repeat 200%Z k.
Proof. induction k as [| k IH]; simpl; congruence. Qed.

Lemma Forall_repeat_200 k : Forall (eq 200%Z) (repeat 200%Z k).
Proof. induction k; simpl; constructor; auto. Qed.

Lemma new_events_app `{P : Platform} (w w' : World) evs :
  trace w' = trace w ++ evs -> new_events w w' = evs.
Proof. intros E. unfold new_events. rewrite E. apply drop_app_length. Qed.

Lemma full_run_statuses : statuses full_run_events = repeat 200%Z 201.
Proof. reflexivity. Qed.

End TraceFacts.

(** A run that completes made every call, and wrote one file at its end. *)
Lemma run_completed `{P : Platform} (w w' : World) :
  run_performance_tests w = (Ok tt, w') ->
  trace w' = trace w ++ full_run_events /\
  exists gpt_results gpt_stats vit_results vit_stats timestamp,
    map request_number gpt_results = map Z.of_nat (seq 1 100) /\
    map request_number vit_results = map Z.of_nat (seq 1 100) /\
    calculate_stats gpt_results "GPT" = Ok gpt_stats /\
    calculate_stats vit_results "ViT" = Ok vit_stats /\
    files w' = <[results_file_name timestamp :=
                   results_json gpt_results gpt_stats
                                vit_results vit_stats]> (files w).
Proof.
  intros E. destruct (run_cases w) as (r & w2 & E2 & [Hok | Hfail]).
  - rewrite E in E2. injection E2 as <- <-. now destruct Hok as (_ & Ht & Hx).
  - rewrite E in E2. injection E2 as <- <-. now destruct Hfail as (Hr & _).
Qed.

(** A run that does not complete ends in the failed assertion on a
    status, right after the response, and leaves the files alone. *)
Lemma run_aborted `{P : Platform} (w w' : World) e :
  run_performance_tests w = (Raise e, w') ->
  e = AssertionError /\
  files w' = files w /\
  exists evs, new_events w w' = evs ++ [EvResponse 500] /\
              Forall (eq 200%Z) (statuses evs) /\
              (length (statuses evs) <= 200)%nat.
Proof.
  intros E. destruct (run_cases w) as (r & w2 & E2 & [Hok | Hfail]).
  - rewrite E in E2. injection E2 as <- <-. now destruct Hok as (Hr & _).
  - rewrite E in E2. injection E2 as <- <-.
    destruct Hfail as (Hr & Hf & kg & kv & path & evs' & Hk & Hint & Ht).
    split; [congruence |]. split; [assumption |].
    exists (health_events ++ concat (repeat gpt_ok_events kg)
              ++ concat (repeat vit_ok_events kv)
              ++ EvRequest "POST" path :: evs').
    split; [| split].
    + apply new_events_app. rewrite Ht.
      now rewrite <- !app_assoc, <- app_comm_cons.
    + rewrite !statuses_app, statuses_gpt_ok, statuses_vit_ok.
      cbn [statuses health_events]. rewrite (statuses_internal _ Hint).
      repeat (apply Forall_app; split); auto using Forall_repeat_200.
    + rewrite !statuses_app, statuses_gpt_ok, statuses_vit_ok.
      cbn [statuses health_events]. rewrite (statuses_internal _ Hint).
      rewrite !length_app, !repeat_length. simpl. lia.
Qed.

Section OneAtATime.

Lemma sequential_blocks (b : list Event) :
  (forall rest, sequential_from false (b ++ rest) = sequential_from false rest) ->
  forall k rest,
    sequential_from false (concat (repeat b k) ++ rest)
      = sequential_from false rest.
Proof.
  intros Hb. induction k as [| k IH]; intros rest; [reflexivity |].
  cbn [repeat concat]. now rewrite <- app_assoc, Hb.
Qed.

Lemma sequential_pending evs s :
  Forall internal evs -> sequential_from true (evs ++ [EvResponse s]) = true.
Proof.
  induction 1 as [| [m p | s' | ml] evs Hx _ IH]; simpl in *;
    [reflexivity | contradiction | contradiction | assumption].
Qed.

Lemma calls_to_app path evs1 evs2 :
  calls_to path (evs1 ++ evs2) = (calls_to path evs1 + calls_to path evs2)%nat.
Proof.
  induction evs1 as [| [m p | s | ml] evs1 IH]; simpl;
    [reflexivity | | assumption | assumption].
  destruct (String.eqb p path); simpl; congruence.
Qed.

Lemma calls_to_internal path evs : Forall internal evs -> calls_to path evs = O.
Proof.
  induction 1 as [| [m p | s | ml] evs Hx _ IH]; simpl in *;
    [reflexivity | contradiction | contradiction | assumption].
Qed.

Lemma calls_to_gpt_ok k :
  calls_to "/generate_text" (concat (repeat gpt_ok_events k)) = k /\
  calls_to "/process_image" (concat (repeat gpt_ok_events k)) = O.
Proof. induction k as [| k [IH1 IH2]]; simpl; auto. Qed.

Lemma calls_to_vit_ok k :
  calls_to "/generate_text" (concat (repeat vit_ok_events k)) = O /\
  calls_to "/process_image" (concat (repeat vit_ok_events k)) = k.
Proof. induction k as [| k [IH1 IH2]]; simpl; auto. Qed.

(** However a run ends, its calls were made one at a time, and no
    endpoint was called more than 100 times. *)
Lemma run_one_at_a_time `{P : Platform} (w : World) :
  let w' := snd (run_performance_tests w) in
  sequential (new_events w w') = true /\
  (calls_to "/generate_text" (new_events w w') <= 100)%nat /\
  (calls_to "/process_image" (new_events w w') <= 100)%nat.
Proof.
  cbv zeta. destruct (run_cases w) as (r & w' & E & [Hok | Hfail]);
    rewrite E; cbn [snd].
  - destruct Hok as (_ & Ht & _). rewrite (new_events_app _ _ _ Ht).
    split; [reflexivity |]. split; apply Nat.eq_le_incl; reflexivity.
  - destruct Hfail as (_ & _ & kg & kv & path & evs' & Hk & Hint & Ht).
    rewrite (new_events_app _ _ _ Ht).
    destruct (calls_to_gpt_ok kg) as [Hg1 Hg2].
    destruct (calls_to_vit_ok kv) as [Hv1 Hv2].
    split; [| split].
    + unfold sequential. change (health_events ++ ?x)
        with (EvRequest "GET" "/health" :: EvResponse 200 :: x).
      cbn [sequential_from negb andb].
      rewrite (sequential_blocks gpt_ok_events) by reflexivity.
      rewrite (sequential_blocks vit_ok_events) by reflexivity.
      cbn [sequential_from negb andb]. now apply sequential_pending.
    + rewrite !calls_to_app, Hg1, Hv1. cbn [calls_to health_events].
      rewrite calls_to_app, (calls_to_internal _ _ Hint).
      destruct Hk as [(Hkg & -> & ->) | (-> & Hkv & ->)]; simpl; lia.
    + rewrite !calls_to_app, Hg2, Hv2. cbn [calls_to health_events].
      rewrite calls_to_app, (calls_to_internal _ _ Hint).
      destruct Hk as [(Hkg & -> & ->) | (-> & Hkv & ->)]; simpl; lia.
Qed.

End OneAtATime.

(** C7. The harness makes its calls one at a time: in every run a call is
    issued only after the one before has been answered, and no endpoint is
    called more than 100 times.  A run that completes has issued, after the
    health check, exactly 100 calls to [/generate_text] and then exactly 100
    calls to [/process_image]; and the results it has recorded for either
    endpoint carry the request numbers 1 to 100 in this order. *)
Theorem harness_calls_in_sequence `{P : Platform} (w : World) :
  let r := fst (run_performance_tests w) in
  let w' := snd (run_performance_tests w) in
  sequential (new_events w w') = true /\
  (calls_to "/generate_text" (new_events w w') <= 100)%nat /\
  (calls_to "/process_image" (new_events w w') <= 100)%nat /\
  (r = Ok tt ->
   new_events w w' = full_run_events /\
   calls_to "/generate_text" (new_events w w') = 100%nat /\
   calls_to "/process_image" (new_events w w') = 100%nat /\
   exists gpt_results gpt_stats vit_results vit_stats timestamp,
     files w' !! results_file_name timestamp
       = Some (results_json gpt_results gpt_stats vit_results vit_stats) /\
     map request_number gpt_results = map Z.of_nat (seq 1 100) /\
     map request_number vit_results = map Z.of_nat (seq 1 100)).
Proof.
  cbv zeta. destruct (run_one_at_a_time w) as (Hseq & Hg & Hv).
  split; [assumption |]. split; [assumption |]. split; [assumption |].
  destruct (run_performance_tests w) as [r w'] eqn:E. cbn [fst snd] in *.
  intros ->. destruct (run_completed w w' E)
    as (Ht & gs & gst & vs & vst & ts & Hgs & Hvs & _ & _ & Hf).
  rewrite (new_events_app _ _ _ Ht).
  split; [reflexivity |]. split; [reflexivity |]. split; [reflexivity |].
  exists gs, gst, vs, vst, ts. rewrite Hf, lookup_insert_eq. auto.
Qed.

(** The simulated platform with nothing to run out of: the run completes. *)
Lemma harness_calls_in_sequence_witness :
  new_events (Sim.start None) (snd (run_performance_tests (Sim.start None)))
    = full_run_events /\
  calls_to "/generate_text"
    (new_events (Sim.start None)
                (snd (run_performance_tests (Sim.start None)))) = 100%nat /\
  calls_to "/process_image"
    (new_events (Sim.start None)
                (snd (run_performance_tests (Sim.start None)))) = 100%nat /\
  exists gpt_results gpt_stats vit_results vit_stats timestamp,
    files (snd (run_performance_tests (Sim.start None)))
      !! results_file_name timestamp
      = Some (results_json gpt_results gpt_stats vit_results vit_stats) /\
    map request_number gpt_results = map Z.of_nat (seq 1 100) /\
    map request_number vit_results = map Z.of_nat (seq 1 100).
Proof.
  apply (proj2 (proj2 (proj2 (@harness_calls_in_sequence
                                (Sim.platform None) (Sim.start None))))).
  vm_compute. reflexivity.
Defined.

(** C10. A run ends normally or in the failed assertion.  If some call of
    the run is answered with a status other than 200, the run ends in
    [AssertionError], that response is the last thing that happened, every
    response before it was 200, and the files are as they were.  A run that
    ends in an exception leaves the files as they were; a run that ends
    normally has made the health check and the 200 calls, each answered
    200. *)
Theorem abort_on_first_failure `{P : Platform} (w : World) :
  let r := fst (run_performance_tests w) in
  let w' := snd (run_performance_tests w) in
  (r = Ok tt \/ r = Raise AssertionError) /\
  ((exists s, In s (statuses (new_events w w')) /\ s <> 200%Z) ->
   r = Raise AssertionError /\
   files w' = files w /\
   exists evs s, s <> 200%Z /\
                 new_events w w' = evs ++ [EvResponse s] /\
                 Forall (eq 200%Z) (statuses evs)) /\
  (r = Raise AssertionError -> files w' = files w) /\
  (r = Ok tt ->
   new_events w w' = full_run_events /\
   statuses full_run_events = repeat 200%Z 201 /\
   calls_to "/generate_text" full_run_events = 100%nat /\
   calls_to "/process_image" full_run_events = 100%nat).
Proof.
  cbv zeta.
  destruct (run_performance_tests w) as [[[] | e] w'] eqn:E; cbn [fst snd].
  - destruct (run_completed w w' E) as (Ht & _).
    apply new_events_app in Ht.
    split; [now left |]. split; [| split; [discriminate |]].
    + intros (s & Hs & Hne). exfalso. apply Hne.
      rewrite Ht, full_run_statuses in Hs.
      now apply repeat_spec in Hs.
    + intros _. now repeat split.
  - destruct (run_aborted w w' e E) as (-> & Hf & evs & Hn & Hall & _).
    split; [now right |]. split; [| split; [auto | discriminate]].
    intros _. split; [reflexivity |]. split; [assumption |].
    exists evs, 500%Z. split; [discriminate |]. now split.
Qed.

(** On the simulated platform with a budget of 30 ticks the seventh GPT
    call is answered 500: the run ends in the assertion and no file is
    written. *)
Lemma abort_on_first_failure_witness :
  fst (run_performance_tests (Sim.start (Some 30%N)))
    = Raise AssertionError /\
  files (snd (run_performance_tests (Sim.start (Some 30%N))))
    = files (Sim.start (Some 30%N)) /\
  exists evs s,
    s <> 200%Z /\
    new_events (Sim.start (Some 30%N))
               (snd (run_performance_tests (Sim.start (Some 30%N))))
      = evs ++ [EvResponse s] /\
    Forall (eq 200%Z) (statuses evs).
Proof.
  apply (proj1 (proj2 (@abort_on_first_failure (Sim.platform (Some 30%N))
                         (Sim.start (Some 30%N))))).
  exists 500%Z. split; [| discriminate].
  vm_compute. do 7 right. now left.
Defined.

(** What a completed run leaves on disk: one file, written at the very
    end, named after the timestamp alone, that holds for both endpoints
    every per-call record and the statistics computed from them.  No other
    file name is touched. *)
Lemma run_writes_one_file `{P : Platform} (w w' : World) :
  run_performance_tests w = (Ok tt, w') ->
  exists gpt_results gpt_stats vit_results vit_stats timestamp,
    length gpt_results = 100%nat /\
    length vit_results = 100%nat /\
    calculate_stats gpt_results "GPT" = Ok gpt_stats /\
    calculate_stats vit_results "ViT" = Ok vit_stats /\
    files w' !! ("test_results_" +:+ timestamp +:+ ".json")
      = Some (JDict
                [("gpt", JDict [("individual_results",
                                 JList (map CallResult_json gpt_results));
                                ("statistics", Statistics_json gpt_stats)]);
                 ("vit", JDict [("individual_results",
                                 JList (map CallResult_json vit_results));
                                ("statistics", Statistics_json vit_stats)])])
    /\
    forall name : string,
      name <> "test_results_" +:+ timestamp +:+ ".json" ->
      files w' !! name = files w !! name.
Proof.
  intros E. destruct (run_completed w w' E)
    as (_ & gs & gst & vs & vst & ts & Hgs & Hvs & Sg & Sv & Hf).
  exists gs, gst, vs, vst, ts.
  split; [now rewrite <- (length_map request_number), Hgs |].
  split; [now rewrite <- (length_map request_number), Hvs |].
  split; [assumption |]. split; [assumption |]. rewrite Hf. split.
  - apply lookup_insert_eq.
  - intros name Hne. apply lookup_insert_ne. unfold results_file_name. congruence.
Qed.

(** C6. The run on the simulated platform completes, at the timestamp
    20240101_120000, from an empty disk.  It leaves exactly one file,
    [test_results_20240101_120000.json]; there is no file per endpoint and
    no endpoint tag in the name. *)
Theorem results_saved_in_one_untagged_file :
  fst (run_performance_tests (Sim.start None)) = Ok tt /\
  dom (files (snd (run_performance_tests (Sim.start None))))
    = ({[ "test_results_20240101_120000.json" ]} : gset string) /\
  files (snd (run_performance_tests (Sim.start None)))
    !! "gpt_test_results_20240101_120000.json" = None /\
  files (snd (run_performance_tests (Sim.start None)))
    !! "vit_test_results_20240101_120000.json" = None.
Proof.
  repeat split; vm_compute; reflexivity.
Qed.

(** * Further properties *)

(** ** More on the statistics *)

(** X2. [calculate_stats] needs at least one result: it returns a record
    exactly when the list is not empty, and on the empty list it raises the
    [ValueError] of [np.min] (the [nan] that [np.mean] gives there is never
    returned). *)
Theorem stats_need_a_result `{P : Platform} (results : list CallResult)
    (name : string) :
  ((exists s, calculate_stats results name = Ok s) <-> results <> []) /\
  (results = [] ->
   calculate_stats results name =
     Raise (mkException "ValueError"
              "zero-size array to reduction operation minimum which has no identity")).
Proof.
  split; [split |].
  - intros [s E]. destruct results; [discriminate E | discriminate].
  - intros Hne. destruct (calculate_stats_nonempty results name Hne)
      as (r & rs & _ & E). eauto.
  - intros ->. reflexivity.
Qed.

(** ** More on whole runs *)

Section RunsMore.
Context `{P : Platform}.

Lemma bind_ok_inv {A B} (m : M A) (k : A -> M B) w b w' :
  bind m k w = (Ok b, w') ->
  exists a w1, m w = (Ok a, w1) /\ k a w1 = (Ok b, w').
Proof.
  unfold bind. destruct (m w) as [[a | e] w1]; intros E.
  - now exists a, w1.
  - discriminate E.
Qed.

(** The minimum is a value of the list. *)
Lemma fold_left_Rmin_attained xs : forall x,
  In (fold_left Rmin xs x) (x :: xs).
Proof.
  induction xs as [| a xs IH]; intros x; simpl.
  - now left.
  - destruct (IH (Rmin x a)) as [E | Hin].
    + rewrite <- E. unfold Rmin. destruct (Rle_dec x a); auto.
    + now right; right.
Qed.

End RunsMore.

Section RunClock.
Context `{P : Platform} `{Hclock : !SaneClock}.

(** Every record a loop of timed calls appends has a server-reported time
    that is not negative and below the measured total. *)
Lemma loop_clock (h : Handler) method path :
  (forall w content w',
      h w = (Return content, w') ->
      exists e_end,
        env w' = snd (time_time e_end) /\
        getitem content "processing_time"
          = Ok (JFloat (now e_end - now (env w))) /\
        now (env w) <= now e_end) ->
  forall xs results w results' w',
    for_in xs (timed_call (client_request method path h)) results w
      = (Ok results', w') ->
    exists cs, results' = results ++ cs /\
               Forall (fun c => 0 <= server_processing_time c < total_time c)
                      cs.
Proof.
  intros Hh. induction xs as [| x xs IH]; intros results w results' w' E.
  - injection E as <- <-. exists []. split; [now rewrite app_nil_r | constructor].
  - cbn [for_in] in E. apply bind_ok_inv in E as (acc & w1 & E1 & E2).
    destruct (timed_call_clock h method path x results w acc w1 Hh E1)
      as (c & content & w2 & e_end & -> & _ & _ & _ & _ & _ & _ & Hc0 & Hc1).
    destruct (IH _ _ _ _ E2) as (cs & -> & Hcs).
    exists (c :: cs). split; [now rewrite <- app_assoc |].
    constructor; [now split | assumption].
Qed.

(** A completed run, with what the clock says about its records. *)
Lemma run_completed_clock (w w' : World) :
  run_performance_tests w = (Ok tt, w') ->
  exists gpt_results gpt_stats vit_results vit_stats timestamp,
    calculate_stats gpt_results "GPT" = Ok gpt_stats /\
    calculate_stats vit_results "ViT" = Ok vit_stats /\
    files w' = <[results_file_name timestamp :=
                   results_json gpt_results gpt_stats
                                vit_results vit_stats]> (files w) /\
    Forall (fun c => 0 <= server_processing_time c < total_time c)
           gpt_results /\
    Forall (fun c => 0 <= server_processing_time c < total_time c)
           vit_results.
Proof.
  intros E. unfold run_performance_tests in E.
  rewrite (bind_ok _ _ _ _ _ (test_health_eq w)) in E. cbv zeta in E.
  apply bind_ok_inv in E as (gs & w1 & E1 & E).
  apply bind_ok_inv in E as (vs & w2 & E2 & E).
  apply bind_ok_inv in E as (gst & w3 & E3 & E).
  apply bind_ok_inv in E as (vst & w4 & E4 & E).
  apply bind_ok_inv in E as (ts & w5 & E5 & E).
  unfold lift_result in E3, E4.
  injection E3 as E3 <-. injection E4 as E4 <-.
  rewrite call_eq in E5. injection E5 as _ <-.
  unfold write_file in E. injection E as <-. cbn [env files trace].
  unfold gpt_call, post_generate_text, range in E1.
  unfold vit_call, post_process_image, range in E2.
  destruct (loop_clock _ _ _ (generate_text_measures _) _ _ _ _ _ E1)
    as (cg & -> & Hcg).
  destruct (loop_clock _ _ _ (process_image_measures _) _ _ _ _ _ E2)
    as (cv & -> & Hcv).
  match type of E1 with for_in _ _ _ ?w0 = _ =>
    destruct (loop_cases _ _ "POST" "/generate_text"
                (generate_text_timed
                   (TextRequest_init
                      {| body_text := "Once upon a time";
                         body_max_length := Given (Some 50%Z) |}))
                100 O [] w0) as (r1 & w1' & E1' & Hf1 & _)
  end.
  rewrite E1 in E1'. injection E1' as <- <-.
  destruct (loop_cases _ _ "POST" "/process_image"
              (process_image_timed {| image := create_test_image |})
              100 O [] w1) as (r2 & w2' & E2' & Hf2 & _).
  rewrite E2 in E2'. injection E2' as <- <-.
  exists ([] ++ cg), gst, ([] ++ cv), vst.
  eexists. split; [exact E3 |]. split; [exact E4 |].
  split; [rewrite Hf2, Hf1; reflexivity |]. now split.
Qed.

End RunClock.

(** X6. With a clock that does not run backwards and a transport that
    takes time, the file a completed run leaves is consistent about time,
    for both endpoints: every record has a server-reported time that is
    not negative and below its [total_time], and the reported [min_time],
    which is the [total_time] of one of the records, is positive. *)
Theorem completed_run_times_are_consistent `{P : Platform}
    `{Hclock : !SaneClock} (w w' : World) :
  run_performance_tests w = (Ok tt, w') ->
  exists gpt_results gpt_stats vit_results vit_stats timestamp,
    files w' !! results_file_name timestamp
      = Some (results_json gpt_results gpt_stats vit_results vit_stats) /\
    Forall (fun c => 0 <= server_processing_time c < total_time c)
           (gpt_results ++ vit_results) /\
    In (min_time gpt_stats) (map total_time gpt_results) /\
    0 < min_time gpt_stats /\
    In (min_time vit_stats) (map total_time vit_results) /\
    0 < min_time vit_stats.
Proof.
  intros E. destruct (run_completed_clock w w' E)
    as (gs & gst & vs & vst & ts & Sg & Sv & Hf & Hg & Hv).
  assert (Hstat : forall rs name s,
             calculate_stats rs name = Ok s ->
             Forall (fun c => 0 <= server_processing_time c < total_time c)
                    rs ->
             In (min_time s) (map total_time rs) /\ 0 < min_time s).
  { intros rs name s Hs Hall. rewrite List.Forall_forall in Hall.
    destruct rs as [| r0 rs0]; [discriminate Hs |].
    destruct (calculate_stats_nonempty (r0 :: rs0) name)
      as (r1 & rs1 & Hc & E0); [discriminate |].
    injection Hc as <- <-. rewrite E0 in Hs. injection Hs as <-.
    cbn [min_time].
    pose proof (fold_left_Rmin_attained (map total_time rs0) (total_time r0))
      as Hlo.
    change (total_time r0 :: map total_time rs0)
      with (map total_time (r0 :: rs0)) in Hlo.
    split; [exact Hlo |].
    apply in_map_iff in Hlo as (c & <- & Hc).
    destruct (Hall c Hc). lra. }
  exists gs, gst, vs, vst, ts.
  split; [rewrite Hf; apply lookup_insert_eq |].
  split; [apply Forall_app; now split |].
  destruct (Hstat _ _ _ Sg Hg) as [? ?], (Hstat _ _ _ Sv Hv) as [? ?].
  repeat split; assumption.
Qed.

(** The run of the simulated platform that completes. *)
Lemma completed_run_times_are_consistent_witness :
  exists gpt_results gpt_stats vit_results vit_stats timestamp,
    files (snd (run_performance_tests (Sim.start None)))
      !! results_file_name timestamp
      = Some (results_json gpt_results gpt_stats vit_results vit_stats) /\
    Forall (fun c => 0 <= server_processing_time c < total_time c)
           (gpt_results ++ vit_results) /\
    In (min_time gpt_stats) (map total_time gpt_results) /\
    0 < min_time gpt_stats /\
    In (min_time vit_stats) (map total_time vit_results) /\
    0 < min_time vit_stats.
Proof.
  apply (@completed_run_times_are_consistent (Sim.platform None)
           (Sim_sane_clock None) (Sim.start None)).
  assert (E : fst (run_performance_tests (Sim.start None)) = Ok tt)
    by (vm_compute; reflexivity).
  rewrite <- E. apply surjective_pairing.
Defined.

(** X7. A completed run persists what it measured: the file
    [test_results_<timestamp>.json] holds, for either endpoint, the records
    of its 100 calls, numbered 1 to 100 in order, together with the
    statistics that [calculate_stats] gives on exactly those records.
    Whatever was stored under that name before is replaced, and every file
    of another name is as it was. *)
Theorem completed_run_persists_measurements `{P : Platform} (w w' : World) :
  run_performance_tests w = (Ok tt, w') ->
  exists gpt_results gpt_stats vit_results vit_stats timestamp,
    map request_number gpt_results = map Z.of_nat (seq 1 100) /\
    map request_number vit_results = map Z.of_nat (seq 1 100) /\
    calculate_stats gpt_results "GPT" = Ok gpt_stats /\
    calculate_stats vit_results "ViT" = Ok vit_stats /\
    files w' !! ("test_results_" +:+ timestamp +:+ ".json")
      = Some (JDict
                [("gpt", JDict [("individual_results",
                                 JList (map CallResult_json gpt_results));
                                ("statistics", Statistics_json gpt_stats)]);
                 ("vit", JDict [("individual_results",
                                 JList (map CallResult_json vit_results));
                                ("statistics", Statistics_json vit_stats)])])
    /\
    forall name : string,
      name <> "test_results_" +:+ timestamp +:+ ".json" ->
      files w' !! name = files w !! name.
Proof.
  intros E. destruct (run_completed w w' E)
    as (_ & gs & gst & vs & vst & ts & Hgs & Hvs & Sg & Sv & Hf).
  exists gs, gst, vs, vst, ts.
  split; [assumption |]. split; [assumption |].
  split; [assumption |]. split; [assumption |]. rewrite Hf. split.
  - apply lookup_insert_eq.
  - intros name Hne. apply lookup_insert_ne.
    unfold results_file_name. congruence.
Qed.

(** The run of the simulated platform that completes. *)
Lemma completed_run_persists_measurements_witness :
  exists gpt_results gpt_stats vit_results vit_stats timestamp,
    map request_number gpt_results = map Z.of_nat (seq 1 100) /\
    map request_number vit_results = map Z.of_nat (seq 1 100) /\
    @calculate_stats (Sim.platform None) gpt_results "GPT" = Ok gpt_stats /\
    @calculate_stats (Sim.platform None) vit_results "ViT" = Ok vit_stats /\
    files (snd (run_performance_tests (Sim.start None)))
      !! ("test_results_" +:+ timestamp +:+ ".json")
      = Some (JDict
                [("gpt", JDict [("individual_results",
                                 JList (map CallResult_json gpt_results));
                                ("statistics", Statistics_json gpt_stats)]);
                 ("vit", JDict [("individual_results",
                                 JList (map CallResult_json vit_results));
                                ("statistics", Statistics_json vit_stats)])])
    /\
    forall name : string,
      name <> "test_results_" +:+ timestamp +:+ ".json" ->
      files (snd (run_performance_tests (Sim.start None))) !! name
        = files (Sim.start None) !! name.
Proof.
  apply (@completed_run_persists_measurements (Sim.platform None)
           (Sim.start None)).
  assert (E : fst (run_performance_tests (Sim.start None)) = Ok tt)
    by (vm_compute; reflexivity).
  rewrite <- E. apply surjective_pairing.
Defined.

(** X8. Two runs that complete one after the other and get the same
    timestamp (they start within the same second) leave a single results
    file, and it holds the second run's results only: the first run's are
    gone. *)
Theorem same_second_runs_overwrite `{P : Platform} (w w1 w2 : World) :
  run_performance_tests w = (Ok tt, w1) ->
  run_performance_tests w1 = (Ok tt, w2) ->
  exists timestamp1 content1 timestamp2 content2,
    files w1 = <[results_file_name timestamp1 := content1]> (files w) /\
    files w2 = <[results_file_name timestamp2 := content2]> (files w1) /\
    (timestamp1 = timestamp2 ->
     files w2 = <[results_file_name timestamp2 := content2]> (files w) /\
     files w2 !! results_file_name timestamp1 = Some content2).
Proof.
  intros E1 E2.
  destruct (run_completed w w1 E1)
    as (_ & g1 & gs1 & v1 & vs1 & ts1 & _ & _ & _ & _ & Hf1).
  destruct (run_completed w1 w2 E2)
    as (_ & g2 & gs2 & v2 & vs2 & ts2 & _ & _ & _ & _ & Hf2).
  exists ts1, (results_json g1 gs1 v1 vs1), ts2, (results_json g2 gs2 v2 vs2).
  split; [exact Hf1 |]. split; [exact Hf2 |].
  intros ->. rewrite Hf2, Hf1. split.
  - apply insert_insert_eq.
  - apply lookup_insert_eq.
Qed.

(** Two runs on the simulated platform, whose clock for [datetime] stands
    still: one file is left. *)
Lemma same_second_runs_overwrite_witness :
  exists timestamp1 content1 timestamp2 content2,
    files (snd (run_performance_tests (Sim.start None)))
      = <[results_file_name timestamp1 := content1]> (files (Sim.start None))
    /\
    files (snd (run_performance_tests
                  (snd (run_performance_tests (Sim.start None)))))
      = <[results_file_name timestamp2 := content2]>
          (files (snd (run_performance_tests (Sim.start None)))) /\
    (timestamp1 = timestamp2 ->
     files (snd (run_performance_tests
                   (snd (run_performance_tests (Sim.start None)))))
       = <[results_file_name timestamp2 := content2]>
           (files (Sim.start None)) /\
     files (snd (run_performance_tests
                   (snd (run_performance_tests (Sim.start None)))))
       !! results_file_name timestamp1 = Some content2).
Proof.
  apply (@same_second_runs_overwrite (Sim.platform None) (Sim.start None)).
  - assert (E : fst (run_performance_tests (Sim.start None)) = Ok tt)
      by (vm_compute; reflexivity).
    rewrite <- E. apply surjective_pairing.
  - assert (E : fst (run_performance_tests
                       (snd (run_performance_tests (Sim.start None))))
                = Ok tt) by (vm_compute; reflexivity).
    rewrite <- E. apply surjective_pairing.
Defined.

(** X9. The phases of a run come in order.  Every run begins with the
    health check; and whenever [/process_image] has been called at all, the
    health check and 100 calls to [/generate_text], each answered 200, came
    first.  A failure in the GPT loop therefore means that the ViT endpoint
    is never called. *)
Theorem vit_phase_follows_full_gpt_phase `{P : Platform} (w : World) :
  let evs := new_events w (snd (run_performance_tests w)) in
  (exists rest, evs = health_events ++ rest) /\
  ((0 < calls_to "/process_image" evs)%nat ->
   exists rest,
     evs = health_events ++ concat (repeat gpt_ok_events 100) ++ rest) /\
  ((calls_to "/generate_text" evs < 100)%nat ->
   calls_to "/process_image" evs = O /\
   fst (run_performance_tests w) = Raise AssertionError).
Proof.
  cbv zeta. destruct (run_cases w) as (r & w' & E & [Hok | Hfail]);
    rewrite E; cbn [fst snd].
  - destruct Hok as (_ & Ht & _). rewrite (new_events_app _ _ _ Ht).
    split; [| split].
    + eexists. reflexivity.
    + intros _. eexists. reflexivity.
    + intros H. exfalso. revert H. apply Nat.lt_irrefl.
  - destruct Hfail as (-> & _ & kg & kv & path & evs' & Hk & Hint & Ht).
    rewrite (new_events_app _ _ _ Ht).
    destruct (calls_to_gpt_ok kg) as [Hg1 Hg2].
    destruct (calls_to_vit_ok kv) as [Hv1 Hv2].
    assert (Hgen : calls_to "/generate_text"
                     (health_events ++ concat (repeat gpt_ok_events kg)
                        ++ concat (repeat vit_ok_events kv)
                        ++ EvRequest "POST" path :: evs' ++ [EvResponse 500])
                   = (kg + calls_to "/generate_text"
                             [EvRequest "POST" path])%nat).
    { rewrite !calls_to_app, Hg1, Hv1. cbn [calls_to health_events].
      rewrite calls_to_app, (calls_to_internal _ _ Hint).
      destruct (String.eqb path "/generate_text"); simpl; lia. }
    assert (Himg : calls_to "/process_image"
                     (health_events ++ concat (repeat gpt_ok_events kg)
                        ++ concat (repeat vit_ok_events kv)
                        ++ EvRequest "POST" path :: evs' ++ [EvResponse 500])
                   = (kv + calls_to "/process_image"
                             [EvRequest "POST" path])%nat).
    { rewrite !calls_to_app, Hg2, Hv2. cbn [calls_to health_events].
      rewrite calls_to_app, (calls_to_internal _ _ Hint).
      destruct (String.eqb path "/process_image"); simpl; lia. }
    rewrite Hgen, Himg. split; [| split].
    + eexists. reflexivity.
    + destruct Hk as [(Hkg & -> & ->) | (-> & Hkv & ->)].
      * simpl. intros H. inversion H.
      * intros _. eexists. reflexivity.
    + destruct Hk as [(Hkg & -> & ->) | (-> & Hkv & ->)].
      * intros _. now split.
      * simpl. intros H. exfalso. lia.
Qed.

(** On the simulated platform with a budget of 30 ticks the GPT loop fails
    at its seventh call: the ViT endpoint is never called. *)
Lemma vit_phase_follows_full_gpt_phase_witness :
  calls_to "/process_image"
    (new_events (Sim.start (Some 30%N))
       (snd (run_performance_tests (Sim.start (Some 30%N))))) = O /\
  fst (run_performance_tests (Sim.start (Some 30%N))) = Raise AssertionError.
Proof.
  apply (proj2 (proj2 (@vit_phase_follows_full_gpt_phase
                         (Sim.platform (Some 30%N)) (Sim.start (Some 30%N))))).
  vm_compute. lia.
Defined.

Section Shapes.
Context `{P : Platform}.

Lemma generate_text_shape request w :
  (exists g p,
      fst (generate_text request w)
        = Return (JDict [("generated_text", JStr g);
                         ("processing_time", JFloat p)])) \/
  (exists d, fst (generate_text request w) = RaiseHTTPException 500 d).
Proof.
  unfold generate_text, except_Exception, generate_text_try, bind, call,
    emit, now_time, read_clock, ret.
  destruct (time_time (env w)) as [t0 e0]; simpl.
  destruct (gpt_tokenizer _ e0) as [[toks | ex] e1]; simpl; [| eauto].
  destruct (gpt_model_generate toks _ e1) as [[out | ex] e2]; simpl;
    [| eauto].
  destruct (gpt_tokenizer_decode out e2) as [[g | ex] e3]; simpl; [| eauto].
  destruct (time_time e3) as [t1 e4]; simpl. eauto.
Qed.

Lemma process_image_shape request w :
  (exists sh p,
      fst (process_image request w)
        = Return (JDict [("embedding_shape", JList (map JInt sh));
                         ("processing_time", JFloat p)])) \/
  (exists d, fst (process_image request w) = RaiseHTTPException 500 d).
Proof.
  unfold process_image, except_Exception, process_image_try, bind, call,
    lift_result, now_time, read_clock, ret.
  destruct (time_time (env w)) as [t0 e0]; simpl.
  destruct (b64decode _) as [bytes | ex]; simpl; [| eauto].
  destruct (Image_open bytes) as [img | ex]; simpl; [| eauto].
  destruct (vit_processor img e0) as [[px | ex] e1]; simpl; [| eauto].
  destruct (vit_model px e1) as [[out | ex] e2]; simpl; [| eauto].
  destruct (cls_token_shape out e2) as [[sh | ex] e3]; simpl; [| eauto].
  destruct (time_time e3) as [t1 e4]; simpl. eauto.
Qed.

End Shapes.

(** X10. Whatever body a client posts, the response has one of three
    shapes and never a mix of them.  Status 200 comes with exactly the
    payload and the [processing_time] ([generated_text], or
    [embedding_shape] as a list of integers); status 500 comes with
    [detail] alone, a string; status 422 comes with [detail] alone, the
    list of validation errors.  Neither error has a partial result or a
    [processing_time], so [response.json()["processing_time"]] raises
    [KeyError] there. *)
Theorem responses_have_three_shapes `{P : Platform} :
  (forall (body : RequestBody) (w : World),
      exists response w',
        client_post_generate_text body w = (Ok response, w') /\
        ((status_code response = 200%Z /\
          exists g p,
            response_json response
              = JDict [("generated_text", JStr g);
                       ("processing_time", JFloat p)]) \/
         (status_code response = 500%Z /\
          (exists d, response_json response = JDict [("detail", JStr d)]) /\
          getitem (response_json response) "processing_time"
            = Raise (KeyError "processing_time")) \/
         (status_code response = 422%Z /\
          (exists errors,
              validate_TextRequest body = inl errors /\
              response_json response = JDict [("detail", JList errors)]) /\
          getitem (response_json response) "processing_time"
            = Raise (KeyError "processing_time")))) /\
  (forall (body : RequestBody) (w : World),
      exists response w',
        client_post_process_image body w = (Ok response, w') /\
        ((status_code response = 200%Z /\
          exists sh p,
            response_json response
              = JDict [("embedding_shape", JList (map JInt sh));
                       ("processing_time", JFloat p)]) \/
         (status_code response = 500%Z /\
          (exists d, response_json response = JDict [("detail", JStr d)]) /\
          getitem (response_json response) "processing_time"
            = Raise (KeyError "processing_time")) \/
         (status_code response = 422%Z /\
          (exists errors,
              validate_ImageRequest body = inl errors /\
              response_json response = JDict [("detail", JList errors)]) /\
          getitem (response_json response) "processing_time"
            = Raise (KeyError "processing_time")))).
Proof.
  split.
  - intros body w. unfold client_post_generate_text. rewrite client_post_eq.
    destruct (validate_TextRequest body) as [errors | b].
    + do 2 eexists. split; [reflexivity |]. right; right.
      split; [reflexivity |]. split; [now exists errors | reflexivity].
    + rewrite client_request_eq. cbv zeta.
      do 2 eexists. split; [reflexivity |].
      match goal with |- context [generate_text ?r ?w1] =>
        destruct (generate_text_shape r w1) as [(g & p & ->) | (d & ->)] end.
      * left. simpl. eauto.
      * right; left. simpl. eauto.
  - intros body w. unfold client_post_process_image. rewrite client_post_eq.
    destruct (validate_ImageRequest body) as [errors | b].
    + do 2 eexists. split; [reflexivity |]. right; right.
      split; [reflexivity |]. split; [now exists errors | reflexivity].
    + rewrite client_request_eq. cbv zeta.
      do 2 eexists. split; [reflexivity |].
      match goal with |- context [process_image ?r ?w1] =>
        destruct (process_image_shape r w1) as [(sh & p & ->) | (d & ->)] end.
      * left. simpl. eauto.
      * right; left. simpl. eauto.
Qed.

(** X11. [test_health] passes in every state of the world: neither of its
    assertions can fail.  It makes exactly one call, [GET /health], which is
    answered 200, and touches no file. *)
Theorem test_health_always_passes `{P : Platform} (w : World) :
  exists w',
    test_health w = (Ok tt, w') /\
    files w' = files w /\
    new_events w w' = [EvRequest "GET" "/health"; EvResponse 200].
Proof.
  eexists. split; [apply test_health_eq |]. split; [reflexivity |].
  now apply new_events_app.
Qed.

(** X12. Input that fails before inference never reaches a model.  When
    the tokenizer raises, [gpt_model.generate] is not invoked: the trace
    gets no generation event and the machine is left as the tokenizer left
    it.  When [base64.b64decode] or [Image.open] raises, neither the image
    processor nor the ViT model runs: the machine is left as it was after
    the handler's first clock reading.  Either way the answer is status 500
    with the message of what failed. *)
Theorem failed_input_never_reaches_model `{P : Platform} :
  (forall (request : TextRequest) (w : World) e e1,
      gpt_tokenizer (text request) (snd (time_time (env w))) = (Raise e, e1) ->
      generate_text request w
        = (RaiseHTTPException 500 (str e),
           mkWorld _ e1 (files w) (trace w))) /\
  (forall (request : ImageRequest) (w : World) e,
      b64decode (image request) = Raise e \/
      (exists b, b64decode (image request) = Ok b /\ Image_open b = Raise e) ->
      process_image request w
        = (RaiseHTTPException 500 (str e),
           mkWorld _ (snd (time_time (env w))) (files w) (trace w)) /\
      new_events w (snd (post_process_image request w))
        = [EvRequest "POST" "/process_image"; EvResponse 500]).
Proof.
  split.
  - intros request w e e1 Htok. unfold generate_text.
    rewrite read_clock_env. apply except_Exception_raise.
    unfold generate_text_try. apply bind_raise.
    rewrite call_eq. cbn [env]. now rewrite Htok.
  - intros request w e Hfail. split.
    + now apply process_image_decode_failure.
    + unfold post_process_image. rewrite client_request_eq. cbv zeta.
      rewrite (process_image_decode_failure request _ e Hfail).
      cbn [fst snd respond status_code trace]. apply new_events_app.
      now rewrite <- app_assoc.
Qed.

(** The image "abc" on the simulated platform: refused by the base64
    decoder, with no tick spent on the model. *)
Lemma failed_input_never_reaches_model_witness :
  process_image {| image := "abc" |} (Sim.start None)
    = (RaiseHTTPException 500 "Incorrect padding", Sim.start None) /\
  new_events (Sim.start None)
             (snd (post_process_image {| image := "abc" |} (Sim.start None)))
    = [EvRequest "POST" "/process_image"; EvResponse 500].
Proof.
  exact (proj2 (@failed_input_never_reaches_model (Sim.platform None))
           {| image := "abc" |} (Sim.start None)
           (mkException "binascii.Error" "Incorrect padding")
           (or_introl eq_refl)).
Defined.

(** The codec of [Echo] keeps the laws. *)
Lemma Echo_codec_laws : @CodecLaws Echo.platform.
Proof.
  split; simpl.
  - intros b. now rewrite String.list_byte_of_string_of_list_byte.
  - intros mode size color. eexists. reflexivity.
Qed.

(** X13. The image that [create_test_image] builds is one that
    [process_image] accepts.  With codecs that keep their laws (decoding
    undoes encoding, PIL reads the PNG files it writes), decoding the
    string gives back the PNG bytes of the red 224 x 224 image, PIL opens
    them, and the request is answered with the embedding shape whenever the
    processor, the model and the extraction of the first token succeed: a
    ViT call of the harness can only fail in those three. *)
Theorem test_image_is_accepted `{P : Platform} `{Hlaws : !CodecLaws}
    (w : World) :
  b64decode create_test_image
    = Ok (Image_new_png "RGB" (224%Z, 224%Z) "red") /\
  exists img,
    Image_open (Image_new_png "RGB" (224%Z, 224%Z) "red") = Ok img /\
    (forall px e1 out e2 sh e3,
        vit_processor img (snd (time_time (env w))) = (Ok px, e1) ->
        vit_model px e1 = (Ok out, e2) ->
        cls_token_shape out e2 = (Ok sh, e3) ->
        process_image {| image := create_test_image |} w
          = (Return (JDict [("embedding_shape", JList (map JInt sh));
                            ("processing_time",
                             JFloat (now e3 - now (env w)))]),
             mkWorld _ (snd (time_time e3)) (files w) (trace w))) /\
    (forall e w',
        process_image_try {| image := create_test_image |}
          (fst (read_clock w)) (snd (read_clock w)) = (Raise e, w') ->
        fst (vit_processor img (snd (time_time (env w)))) = Raise e \/
        (exists px e1,
            vit_processor img (snd (time_time (env w))) = (Ok px, e1) /\
            (fst (vit_model px e1) = Raise e \/
             exists out e2,
               vit_model px e1 = (Ok out, e2) /\
               fst (cls_token_shape out e2) = Raise e))).
Proof.
  assert (Hdec : b64decode create_test_image
                 = Ok (Image_new_png "RGB" (224%Z, 224%Z) "red"))
    by apply b64decode_b64encode.
  split; [exact Hdec |].
  destruct (Image_open_new_png "RGB" (224%Z, 224%Z) "red") as [img Himg].
  exists img. split; [exact Himg |]. split.
  - intros px e1 out e2 sh e3 Hp Hm Hc.
    unfold process_image. rewrite read_clock_env.
    apply except_Exception_ok. unfold process_image_try.
    erewrite bind_ok
      by (unfold lift_result; cbn [image]; rewrite Hdec; reflexivity).
    erewrite bind_ok by (unfold lift_result; rewrite Himg; reflexivity).
    erewrite bind_ok by (rewrite call_eq; simpl; rewrite Hp; reflexivity).
    erewrite bind_ok by (rewrite call_eq; simpl; rewrite Hm; reflexivity).
    erewrite bind_ok by (rewrite call_eq; simpl; rewrite Hc; reflexivity).
    erewrite bind_ok by (rewrite now_time_eq; reflexivity).
    reflexivity.
  - intros e w'. rewrite read_clock_env. cbn [fst snd].
    unfold process_image_try.
    erewrite bind_ok
      by (unfold lift_result; cbn [image]; rewrite Hdec; reflexivity).
    erewrite bind_ok by (unfold lift_result; rewrite Himg; reflexivity).
    unfold bind, call, now_time, read_clock, ret. simpl.
    destruct (vit_processor img _) as [[px | ex] e1] eqn:Ep; simpl.
    + destruct (vit_model px e1) as [[out | ex] e2] eqn:Em; simpl.
      * destruct (cls_token_shape out e2) as [[sh | ex] e3] eqn:Ec; simpl.
        -- destruct (time_time e3); discriminate.
        -- intros H. injection H as -> _. right. exists px, e1.
           split; [reflexivity |]. right. exists out, e2.
           split; [assumption |]. now rewrite Ec.
      * intros H. injection H as -> _. right. exists px, e1.
        split; [reflexivity |]. left. now rewrite Em.
    + intros H. injection H as -> _. now left.
Qed.

(** On [Echo], where every library call succeeds, the test image is
    answered with the shape 1 x 768. *)
Lemma test_image_is_accepted_witness :
  @b64decode Echo.platform (@create_test_image Echo.platform)
    = Ok (@Image_new_png Echo.platform "RGB" (224%Z, 224%Z) "red") /\
  fst (@process_image Echo.platform
         {| image := @create_test_image Echo.platform |} Echo.start)
    = Return (JDict [("embedding_shape", JList [JInt 1; JInt 768]);
                     ("processing_time",
                      JFloat (@now Echo.platform 3%N
                              - @now Echo.platform 0%N))]).
Proof.
  destruct (@test_image_is_accepted Echo.platform Echo_codec_laws Echo.start)
    as (Hdec & img & Himg & Hok & _).
  split; [exact Hdec |].
  injection Himg as <-.
  now rewrite (Hok _ 1%N _ 2%N [1%Z; 768%Z] 3%N eq_refl eq_refl eq_refl).
Defined.

(** X14. The two loops only ever append.  Run for any number [n] of calls,
    from any list of earlier results and with any text or image, a loop
    that finishes returns the earlier results unchanged, followed by one
    record per call, numbered 1 to [n] in order; a loop that does not
    finish ends in [AssertionError], hands no list back, and has made at
    least one call.  Neither touches a file. *)
Theorem loops_only_append `{P : Platform} (n : nat)
    (results : list CallResult) (w : World) :
  (forall test_text : string,
      match for_in (range n) (gpt_call test_text) results w with
      | (Ok results', w') =>
          files w' = files w /\
          exists cs, results' = results ++ cs /\
                     map request_number cs = map Z.of_nat (seq 1 n)
      | (Raise e, w') =>
          files w' = files w /\ e = AssertionError /\ (0 < n)%nat
      end) /\
  (forall test_image : string,
      match for_in (range n) (vit_call test_image) results w with
      | (Ok results', w') =>
          files w' = files w /\
          exists cs, results' = results ++ cs /\
                     map request_number cs = map Z.of_nat (seq 1 n)
      | (Raise e, w') =>
          files w' = files w /\ e = AssertionError /\ (0 < n)%nat
      end).
Proof.
  split.
  - intros test_text. unfold gpt_call, post_generate_text, range.
    destruct (loop_cases _ _ "POST" "/generate_text"
                (generate_text_timed
                   (TextRequest_init
                      {| body_text := test_text;
                         body_max_length := Given (Some 50%Z) |}))
                n O results w)
      as (r & w' & -> & Hf &
          [(cs & -> & Hcs & _) | (-> & k & _ & Hk & _)]).
    + split; [assumption |]. now exists cs.
    + split; [assumption |]. split; [reflexivity | lia].
  - intros test_image. unfold vit_call, post_process_image, range.
    destruct (loop_cases _ _ "POST" "/process_image"
                (process_image_timed {| image := test_image |})
                n O results w)
      as (r & w' & -> & Hf &
          [(cs & -> & Hcs & _) | (-> & k & _ & Hk & _)]).
    + split; [assumption |]. now exists cs.
    + split; [assumption |]. split; [reflexivity | lia].
Qed.
